(** * powerhour_generator: a shallow embedding of the batch pipeline

    The development follows [powerhour_generator.py] function by function.
    Text is modelled as byte strings (the tools' output is ASCII), Python
    integers as [Z], Python floats by the exact rational value of the
    binary64 they denote (plus the two infinities and NaN), dictionaries
    as insertion-ordered association lists, and the effects of the script
    (console output, external processes, files written, random draws) by
    a state-and-exception monad over an explicit description of the host. *)

From Stdlib Require Import ZArith QArith List String Ascii Bool Lia Arith.
From Stdlib Require DecimalString.
Import ListNotations.

Local Open Scope string_scope.
Local Open Scope Z_scope.

(** ** Python text primitives *)

Module PyStr.

(** [str.isspace] on the ASCII range: TAB, LF, VT, FF, CR, FS, GS, RS, US
    and the space character. *)
Definition isspace (c : ascii) : bool :=
  let n := nat_of_ascii c in
  ((9 <=? n) && (n <=? 13) || (28 <=? n) && (n <=? 32))%nat.

Fixpoint lstrip (l : list ascii) : list ascii :=
  match l with
  | c :: l' => if isspace c then lstrip l' else l
  | [] => []
  end.

Definition rstrip (l : list ascii) : list ascii := rev (lstrip (rev l)).

(** [s.strip()] *)
Definition strip_chars (l : list ascii) : list ascii := rstrip (lstrip l).

Definition strip (s : string) : string :=
  string_of_list_ascii (strip_chars (list_ascii_of_string s)).

(** [s.split(sep)] for a one-character separator: every occurrence cuts. *)
Fixpoint split_chars (sep : ascii) (cur : list ascii) (l : list ascii)
  : list (list ascii) :=
  match l with
  | [] => [rev cur]
  | c :: l' =>
      if Ascii.eqb c sep then rev cur :: split_chars sep [] l'
      else split_chars sep (c :: cur) l'
  end.

Definition split (sep : ascii) (s : string) : list string :=
  map string_of_list_ascii (split_chars sep [] (list_ascii_of_string s)).

(** [sep in s] *)
Definition contains (sep : ascii) (s : string) : bool :=
  existsb (Ascii.eqb sep) (list_ascii_of_string s).

(** [s.split(sep, 1)] on a string that contains [sep]: the text before the
    first separator and the text after it. *)
Fixpoint split_first (sep : ascii) (s : string) : string * string :=
  match s with
  | EmptyString => (EmptyString, EmptyString)
  | String c s' =>
      if Ascii.eqb c sep then (EmptyString, s')
      else let (a, b) := split_first sep s' in (String c a, b)
  end.

(** [str(n)] for a non-negative integer. *)
Definition of_nat (n : nat) : string := DecimalString.NilEmpty.string_of_uint (Nat.to_uint n).

Fixpoint zeros (k : nat) : string :=
  match k with
  | O => EmptyString
  | S k' => String "0" (zeros k')
  end.

(** [f"{i:04d}"] for a non-negative [i]: decimal digits, padded with
    zeros on the left up to four characters, never truncated. *)
Definition pad4 (i : nat) : string :=
  let d := of_nat i in zeros (4 - String.length d) ++ d.

(** [os.path.join(a, b)] on a POSIX host. *)
Definition ends_with_slash (a : string) : bool :=
  match rev (list_ascii_of_string a) with
  | c :: _ => Ascii.eqb c "/"
  | [] => false
  end.

Definition dir_prefix (a : string) : string :=
  if (a =? EmptyString)%string || ends_with_slash a then a else a ++ "/".

Definition starts_with_slash (b : string) : bool :=
  match b with
  | String c _ => Ascii.eqb c "/"
  | EmptyString => false
  end.

Definition path_join (a b : string) : string :=
  if starts_with_slash b then b else dir_prefix a ++ b.

End PyStr.

(** ** Python numbers *)

(** A float is represented by the rational it denotes; the sign of zero is
    not tracked (both zeros are falsy, compare equal and truncate to 0). *)
Inductive pyfloat : Type :=
| Finite (q : Q)
| Infinity (negative : bool)
| NaN.

(** The exceptions the script can meet. *)
Inductive exn : Type :=
| ValueError (msg : string)
| KeyError (key : string)
| OverflowError (msg : string)
| ZeroDivisionError (msg : string).

Inductive outcome (A : Type) : Type :=
| Ok (a : A)
| Raise (e : exn).
Arguments Ok {A} a.
Arguments Raise {A} e.

Module PyFloat.

(** [bool(x)] *)
Definition truthy (x : pyfloat) : bool :=
  match x with
  | Finite q => negb (Qeq_bool q 0)
  | _ => true
  end.

(** [x >= z] for an integer [z] *)
Definition ge_int (x : pyfloat) (z : Z) : bool :=
  match x with
  | Finite q => Qle_bool (inject_Z z) q
  | Infinity negative => negb negative
  | NaN => false
  end.

(** [int(x)]: truncation towards zero; infinities and NaN raise. *)
Definition to_int (x : pyfloat) : outcome Z :=
  match x with
  | Finite q => Ok (Z.quot (Qnum q) (Zpos (Qden q)))
  | Infinity _ => Raise (OverflowError "cannot convert float infinity to integer")
  | NaN => Raise (ValueError "cannot convert float NaN to integer")
  end.

(** *** Rounding a positive rational [n/d] to binary64 *)

(** Nearest integer to [n/d], ties to even ([0 <= n], [0 < d]). *)
Definition round_half_even (n d : Z) : Z :=
  let q := n / d in
  let r := n mod d in
  match (2 * r ?= d) with
  | Lt => q
  | Gt => q + 1
  | Eq => if Z.even q then q else q + 1
  end.

(** The exponent [e] with [2^e <= n/d < 2^(e+1)] ([0 < n], [0 < d]). *)
Definition floor_log2 (n d : Z) : Z :=
  let e0 := Z.log2 n - Z.log2 d in
  let below :=
    if 0 <=? e0 then n <? d * 2 ^ e0 else n * 2 ^ (- e0) <? d in
  if below then e0 - 1 else e0.

(** [m * 2^e] as a rational. *)
Definition scale2 (m e : Z) : Q :=
  if 0 <=? e then inject_Z (m * 2 ^ e)
  else Qred (Qmake m (Z.to_pos (2 ^ (- e)))).

Definition round_binary64 (negative : bool) (n d : Z) : pyfloat :=
  if n =? 0 then Finite 0
  else
    let e := floor_log2 n d in
    let ulp := Z.max e (-1022) - 52 in
    let m :=
      if 0 <=? ulp then round_half_even n (d * 2 ^ ulp)
      else round_half_even (n * 2 ^ (- ulp)) d in
    if (0 <=? ulp) && (2 ^ 1024 <=? m * 2 ^ ulp) then Infinity negative
    else Finite (scale2 (if negative then - m else m) ulp).

(** *** The grammar of [float(s)] (ASCII input) *)

Definition digit_val (c : ascii) : option Z :=
  let n := nat_of_ascii c in
  if ((48 <=? n) && (n <=? 57))%nat then Some (Z.of_nat (n - 48)) else None.

(** After a first digit: more digits, each optionally preceded by one
    underscore.  Returns the value read, the number of digits read and
    the unread text. *)
Fixpoint digits (acc : Z) (cnt : Z) (l : list ascii) : Z * Z * list ascii :=
  match l with
  | [] => (acc, cnt, l)
  | c :: l' =>
      match digit_val c with
      | Some v => digits (10 * acc + v) (cnt + 1) l'
      | None =>
          if Ascii.eqb c "_" then
            match l' with
            | c2 :: l'' =>
                match digit_val c2 with
                | Some v => digits (10 * acc + v) (cnt + 1) l''
                | None => (acc, cnt, l)
                end
            | [] => (acc, cnt, l)
            end
          else (acc, cnt, l)
      end
  end.

Definition digitpart (l : list ascii) : option (Z * Z * list ascii) :=
  match l with
  | c :: l' =>
      match digit_val c with
      | Some v => Some (digits v 1 l')
      | None => None
      end
  | [] => None
  end.

(** [number]: mantissa, decimal exponent and unread text. *)
Definition number (l : list ascii) : option (Z * Z * list ascii) :=
  match digitpart l with
  | Some (ip, _, rest) =>
      match rest with
      | "."%char :: rest' =>
          match digitpart rest' with
          | Some (fp, fcnt, rest'') => Some (ip * 10 ^ fcnt + fp, - fcnt, rest'')
          | None => Some (ip, 0, rest')
          end
      | _ => Some (ip, 0, rest)
      end
  | None =>
      match l with
      | "."%char :: rest' =>
          match digitpart rest' with
          | Some (fp, fcnt, rest'') => Some (fp, - fcnt, rest'')
          | None => None
          end
      | _ => None
      end
  end.

Definition sign (l : list ascii) : bool * list ascii :=
  match l with
  | "-"%char :: l' => (true, l')
  | "+"%char :: l' => (false, l')
  | _ => (false, l)
  end.

(** The exponent part; [None] when the text is malformed. *)
Definition exponent (l : list ascii) : option Z :=
  match l with
  | [] => Some 0
  | c :: l' =>
      if Ascii.eqb c "e" || Ascii.eqb c "E" then
        let (neg, l'') := sign l' in
        match digitpart l'' with
        | Some (v, _, []) => Some (if neg then - v else v)
        | _ => None
        end
      else None
  end.

Definition lower (c : ascii) : ascii :=
  let n := nat_of_ascii c in
  if ((65 <=? n) && (n <=? 90))%nat then ascii_of_nat (n + 32) else c.

Definition is_word (word : string) (l : list ascii) : bool :=
  (string_of_list_ascii (map lower l) =? word)%string.

(** [float(s)]; [None] stands for the [ValueError] Python raises. *)
Definition of_string (s : string) : option pyfloat :=
  let (neg, body) := sign (PyStr.strip_chars (list_ascii_of_string s)) in
  if is_word "inf" body || is_word "infinity" body then Some (Infinity neg)
  else if is_word "nan" body then Some NaN
  else
    match number body with
    | Some (mant, dexp, rest) =>
        match exponent rest with
        | Some e =>
            let x := dexp + e in
            Some (if 0 <=? x then round_binary64 neg (mant * 10 ^ x) 1
                  else round_binary64 neg mant (10 ^ (- x)))
        | None => None
        end
    | None => None
    end.

End PyFloat.

(** [int] or [float], for arguments the script passes as either. *)
Inductive number : Type :=
| Int (z : Z)
| Float (x : pyfloat).

Definition nl : string := String (ascii_of_nat 10) EmptyString.

(** ** Dictionaries: insertion-ordered, one binding per key *)

Module PyDict.
Section Dict.
Context {V : Type}.

Definition t : Type := list (string * V).

Definition empty : t := [].

(** [d.get(k)]; a failed [d[k]] is the [None] case. *)
Fixpoint get (k : string) (d : t) : option V :=
  match d with
  | [] => None
  | (k', v) :: d' => if (k =? k')%string then Some v else get k d'
  end.

(** [d[k] = v]: an existing key keeps its position, a new one goes last. *)
Fixpoint set (k : string) (v : V) (d : t) : t :=
  match d with
  | [] => [(k, v)]
  | (k', v') :: d' =>
      if (k =? k')%string then (k', v) :: d' else (k', v') :: set k v d'
  end.

(** [bool(d)] *)
Definition truthy (d : t) : bool :=
  match d with
  | [] => false
  | _ :: _ => true
  end.

(** [d.items()] *)
Definition items (d : t) : list (string * V) := d.

Definition keys (d : t) : list string := map fst d.
End Dict.
Arguments t V : clear implicits.
End PyDict.

(** ** The host: everything the script asks of its environment *)

(** What [subprocess.check_output] does with a finished process. *)
Inductive completed : Type :=
| Exit0 (stdout : string)
| CalledProcessError (output : string).

(** The two command lines handed to [run_command], by their variable parts:
    the re-encode of [reencode_videos] (the fade-out start and the fixed
    codec options are functions of these fields) and the stream-copy
    concatenation of [main]. *)
Inductive command : Type :=
| Encode (video_file : string) (start_time : Z) (duration : number)
         (fade_duration : pyfloat) (audio_filters : string) (output_path : string)
| Concat (concat_list_path : string) (output_file : string).

Definition output_of (c : command) : string :=
  match c with
  | Encode _ _ _ _ _ output_path => output_path
  | Concat _ output_file => output_file
  end.

Record host : Type := {
  which : string -> option string;       (* shutil.which *)
  isdir : string -> bool;                (* os.path.isdir *)
  path_exists : string -> bool;          (* os.path.exists *)
  glob : string -> list string;          (* glob.glob *)
  mkdtemp : string;                      (* the directory TemporaryDirectory makes *)
  entropy : nat -> nat;                  (* the raw draws of the random module *)
  ffprobe : string -> completed;         (* the duration probe of a file *)
  ffmpeg_loudnorm : string -> completed; (* the loudness analysis pass of a file *)
  ffmpeg : command -> bool * bool        (* exit status is 0; an output file is left *)
}.

(** ** Observable effects *)

Inductive event : Type :=
| Print (text : string)
| Progress (prefix : string) (progress total : nat)
| Run (cmd : command) (log_file_path : string)
| WriteFile (path : string) (chunks : list string).

Record state : Type := {
  trace : list event;     (* what the run has done so far, oldest first *)
  created : list string;  (* paths the run has created that still exist *)
  draws : nat             (* random draws consumed *)
}.

Definition initial : state := {| trace := []; created := []; draws := 0 |}.

Definition emit (e : event) (s : state) : state :=
  {| trace := trace s ++ [e]; created := created s; draws := draws s |}.

Definition create (path : string) (s : state) : state :=
  {| trace := trace s; created := path :: created s; draws := draws s |}.

(** A path is inside a directory when it is the directory or extends it
    by a component. *)
Definition inside (dir path : string) : bool :=
  (path =? dir)%string || String.prefix (PyStr.dir_prefix dir) path.

(** [shutil.rmtree] as performed on leaving a [TemporaryDirectory]. *)
Definition rmtree (dir : string) (s : state) : state :=
  {| trace := trace s;
     created := filter (fun p => negb (inside dir p)) (created s);
     draws := draws s |}.

(** ** The monad of the script: state and exceptions *)

Definition M (A : Type) : Type := state -> outcome A * state.

Definition ret {A} (a : A) : M A := fun s => (Ok a, s).

Definition raise {A} (e : exn) : M A := fun s => (Raise e, s).

Definition bind {A B} (c : M A) (k : A -> M B) : M B :=
  fun s =>
    match c s with
    | (Ok a, s') => k a s'
    | (Raise e, s') => (Raise e, s')
    end.

Declare Scope py_scope.
Delimit Scope py_scope with py.
Notation "x <- c ;; k" := (bind c (fun x => k))
  (at level 61, c at next level, right associativity) : py_scope.
Notation "' pat <- c ;; k" := (bind c (fun x => match x with pat => k end))
  (at level 61, pat pattern, c at next level, right associativity) : py_scope.
Notation "c ;; k" := (bind c (fun _ => k))
  (at level 61, right associativity) : py_scope.
Local Open Scope py_scope.

Definition lift {A} (r : outcome A) : M A := fun s => (r, s).

Definition effect (f : state -> state) : M unit := fun s => (Ok tt, f s).

Definition print (text : string) : M unit := effect (emit (Print text)).

(** [with open(path, 'w') as f: f.write(c1); f.write(c2); ...] *)
Definition write_file (path : string) (chunks : list string) : M unit :=
  effect (fun s => emit (WriteFile path chunks) (create path s)).

Section Script.

Variable h : host.

(** *** The random module *)

Definition randbelow (n : nat) : M nat :=
  fun s =>
    (Ok (entropy h (draws s) mod n)%nat,
     {| trace := trace s; created := created s; draws := S (draws s) |}).

(** [random.randint(a, b)] *)
Definition randint (a b : Z) : M Z :=
  if b <? a then raise (ValueError "empty range for randrange()")
  else r <- randbelow (Z.to_nat (b - a + 1));; ret (a + Z.of_nat r).

(** [random.sample(population, k)]: [k] picks without replacement. *)
Fixpoint sample (population : list string) (k : nat) : M (list string) :=
  match k with
  | O => ret []
  | S k' =>
      match population with
      | [] => raise (ValueError "Sample larger than population or is negative")
      | first :: _ =>
          j <- randbelow (List.length population);;
          rest <- sample (firstn j population ++ skipn (S j) population) k';;
          ret (nth j population first :: rest)
      end
  end.

(** *** [draw_progress_bar]: the division by [total] is all that can fail *)
Definition draw_progress_bar (progress total : nat) (prefix : string) : M unit :=
  match total with
  | O => raise (ZeroDivisionError "float division by zero")
  | S _ => effect (emit (Progress prefix progress total))
  end.

(** *** [run_command] *)
Definition run_command (cmd : command) (log_file_path : string) : M bool :=
  fun s =>
    let (ok, left) := ffmpeg h cmd in
    let s1 := emit (Run cmd log_file_path) (create log_file_path s) in
    (Ok ok, if left then create (output_of cmd) s1 else s1).

(** *** [get_video_duration] *)
Definition get_video_duration (video_file : string) : M (option pyfloat) :=
  match ffprobe h video_file with
  | Exit0 stdout =>
      match PyFloat.of_string (PyStr.strip stdout) with
      | Some duration => ret (Some duration)
      | None => raise (ValueError "could not convert string to float")
      end
  | CalledProcessError _ =>
      print ("Error getting duration for " ++ video_file);;
      ret None
  end.

(** *** [analyze_loudness] *)
Definition parse_line (loudness_info : PyDict.t string) (line : string)
  : PyDict.t string :=
  if PyStr.contains ":" line then
    let (key, value) := PyStr.split_first ":" (PyStr.strip line) in
    PyDict.set (PyStr.strip key) (PyStr.strip value) loudness_info
  else loudness_info.

Definition parse_loudness (result : string) : PyDict.t string :=
  fold_left parse_line (PyStr.split (ascii_of_nat 10) result) PyDict.empty.

Definition analyze_loudness (video_file log_file_path : string)
  : M (option (PyDict.t string)) :=
  match ffmpeg_loudnorm h video_file with
  | Exit0 result => ret (Some (parse_loudness result))
  | CalledProcessError output =>
      print ("Error analyzing loudness for " ++ video_file ++ ". See " ++ log_file_path);;
      write_file log_file_path [output];;
      ret None
  end.

(** *** [reencode_videos] *)
Definition getitem (d : PyDict.t string) (key : string) : M string :=
  match PyDict.get key d with
  | Some v => ret v
  | None => raise (KeyError key)
  end.

Definition reencode_videos (video_file : string) (start_time : Z)
    (duration : number) (output_path log_file_path : string)
    (fade_duration : pyfloat) (audio_loudness : PyDict.t string) : M bool :=
  input_i <- getitem audio_loudness "input_i";;
  input_lra <- getitem audio_loudness "input_lra";;
  input_tp <- getitem audio_loudness "input_tp";;
  input_thresh <- getitem audio_loudness "input_thresh";;
  target_offset <- getitem audio_loudness "target_offset";;
  let audio_filters :=
    "loudnorm=I=-23:LRA=7:TP=-1.5:measured_I=" ++ input_i
    ++ ":measured_LRA=" ++ input_lra
    ++ ":measured_TP=" ++ input_tp
    ++ ":measured_thresh=" ++ input_thresh
    ++ ":offset=" ++ target_offset
    ++ ":linear=true:print_format=summary" in
  run_command
    (Encode video_file start_time duration fade_duration audio_filters output_path)
    log_file_path.

(** *** [main] *)

(** Lines 91-96: what the measurement loop does with one sampled file. *)
Definition analyze_candidate (ffmpeg_logs_dir : string) (i : nat)
    (video_file : string)
    (loudness_results : PyDict.t (pyfloat * PyDict.t string))
  : M (PyDict.t (pyfloat * PyDict.t string)) :=
  duration <- get_video_duration video_file;;
  match duration with
  | Some d =>
      if PyFloat.truthy d && PyFloat.ge_int d 80 then
        loudness_info <-
          analyze_loudness video_file
            (PyStr.path_join ffmpeg_logs_dir
               ("loudness_" ++ PyStr.pad4 i ++ ".log"));;
        match loudness_info with
        | Some info =>
            if PyDict.truthy info
            then ret (PyDict.set video_file (d, info) loudness_results)
            else ret loudness_results
        | None => ret loudness_results
        end
      else ret loudness_results
  | None => ret loudness_results
  end.

(** Lines 90-97: the measurement loop over the sampled files. *)
Fixpoint analyze_candidates (ffmpeg_logs_dir : string) (total : nat) (i : nat)
    (video_files : list string)
    (loudness_results : PyDict.t (pyfloat * PyDict.t string))
  : M (PyDict.t (pyfloat * PyDict.t string)) :=
  match video_files with
  | [] => ret loudness_results
  | video_file :: rest =>
      loudness_results' <-
        analyze_candidate ffmpeg_logs_dir i video_file loudness_results;;
      draw_progress_bar (i + 1) total EmptyString;;
      analyze_candidates ffmpeg_logs_dir total (S i) rest loudness_results'
  end.

(** Line 107: the start offset of one clip. *)
Definition pick_start_time (duration : pyfloat) : M Z :=
  whole <- lift (PyFloat.to_int duration);;
  randint 10 (whole - 70).

Definition temp_clip_path (temp_dir : string) (i : nat) : string :=
  PyStr.path_join temp_dir ("temp_clip_" ++ PyStr.pad4 i ++ ".mp4").

Definition video_log_path (ffmpeg_logs_dir : string) (i : nat) : string :=
  PyStr.path_join ffmpeg_logs_dir ("video_" ++ PyStr.pad4 i ++ ".log").

(** Lines 107-115: one clip job, given the clips and the failure count
    accumulated so far. *)
Definition encode_clip (temp_dir ffmpeg_logs_dir : string) (fade_duration : pyfloat)
    (i : nat) (job : string * (pyfloat * PyDict.t string))
    (clip_list : list string) (failed : nat) : M (list string * nat) :=
  let '(video_file, (duration, loudness_info)) := job in
  start_time <- pick_start_time duration;;
  ok <- reencode_videos video_file start_time (Int 60)
          (temp_clip_path temp_dir i) (video_log_path ffmpeg_logs_dir i)
          fade_duration loudness_info;;
  if ok then ret ((clip_list ++ [temp_clip_path temp_dir i])%list, failed)
  else
    print ("Failed to process video: " ++ video_file);;
    ret (clip_list, S failed).

(** Lines 106-116: the per-clip loop, [i] counting from 1. *)
Fixpoint encode_clips (temp_dir ffmpeg_logs_dir : string) (fade_duration : pyfloat)
    (total : nat) (i : nat)
    (jobs : list (string * (pyfloat * PyDict.t string)))
    (clip_list : list string) (failed : nat) : M (list string * nat) :=
  match jobs with
  | [] => ret (clip_list, failed)
  | job :: rest =>
      '(clip_list', failed') <-
        encode_clip temp_dir ffmpeg_logs_dir fade_duration i job clip_list failed;;
      draw_progress_bar i total "Processing: ";;
      encode_clips temp_dir ffmpeg_logs_dir fade_duration total (S i) rest
        clip_list' failed'
  end.

Definition concat_entry (path : string) : string := "file '" ++ path ++ "'" ++ nl.

(** Lines 122-125: what is written to the concat list, one element per
    [write] call, [i] being the loop index. *)
Fixpoint concat_list_entries (common_clip_temp : string) (i : nat)
    (clip_list : list string) : list string :=
  match clip_list with
  | [] => []
  | clip_path :: rest =>
      ((if (0 <? i)%nat then [concat_entry common_clip_temp] else [])
       ++ concat_entry clip_path
       :: concat_list_entries common_clip_temp (S i) rest)%list
  end.

Definition summary_line (failed : nat) : string :=
  nl ++ "Processing complete. " ++ PyStr.of_nat failed ++ " files failed to process.".

(** Lines 120-129: the concat list and the concatenation. *)
Definition assemble (temp_dir ffmpeg_logs_dir common_clip_temp output_file : string)
    (clip_list : list string) : M unit :=
  let concat_list_path := PyStr.path_join temp_dir "concat_list.txt" in
  write_file concat_list_path (concat_list_entries common_clip_temp 0 clip_list);;
  ok <- run_command (Concat concat_list_path output_file)
          (PyStr.path_join ffmpeg_logs_dir "concat.log");;
  if ok then ret tt
  else print ("Failed to concatenate videos. See "
              ++ PyStr.path_join ffmpeg_logs_dir "concat.log").

(** Lines 105-129: everything after the common clip has been re-encoded. *)
Definition process_and_assemble (temp_dir ffmpeg_logs_dir common_clip_temp : string)
    (fade_duration : pyfloat) (output_file : string)
    (video_files : list string)
    (loudness_results : PyDict.t (pyfloat * PyDict.t string)) : M unit :=
  '(clip_list, failed) <-
    encode_clips temp_dir ffmpeg_logs_dir fade_duration (List.length video_files) 1
      (PyDict.items loudness_results) [] 0;;
  print (summary_line failed);;
  assemble temp_dir ffmpeg_logs_dir common_clip_temp output_file clip_list.

(** Lines 82-129: the body of the [with TemporaryDirectory()] block. *)
Definition workspace_block (video_folder common_clip : string)
    (fade_duration : pyfloat) (output_file : string)
    (video_files : list string) (temp_dir : string) : M unit :=
  let ffmpeg_logs_dir := PyStr.path_join temp_dir "logs" in
  effect (create ffmpeg_logs_dir);;
  let max_videos := 60%nat in
  video_files <- sample video_files (Nat.min max_videos (List.length video_files));;
  print "Analyzing loudness and checking durations...";;
  loudness_results <-
    analyze_candidates ffmpeg_logs_dir (List.length video_files) 0 video_files
      PyDict.empty;;
  print (nl ++ "Finished analyzing loudness and checking durations.");;
  let common_clip_temp := PyStr.path_join temp_dir "common_clip.mp4" in
  ok <- reencode_videos common_clip 0 (Float fade_duration) common_clip_temp
          (PyStr.path_join ffmpeg_logs_dir "common_clip.log")
          fade_duration PyDict.empty;;
  if negb ok then print ("Failed to re-encode common clip: " ++ common_clip)
  else
    process_and_assemble temp_dir ffmpeg_logs_dir common_clip_temp fade_duration
      output_file video_files loudness_results.

(** [with TemporaryDirectory() as temp_dir: body]: the directory is
    removed however the body ends. *)
Definition with_TemporaryDirectory {A} (body : string -> M A) : M A :=
  fun s =>
    let temp_dir := mkdtemp h in
    let (r, s') := body temp_dir (create temp_dir s) in
    (r, rmtree temp_dir s').

Definition is_None {A} (o : option A) : bool :=
  match o with
  | None => true
  | Some _ => false
  end.

Definition main (video_folder common_clip : string) (fade_duration : pyfloat)
    (output_file : string) : M unit :=
  if is_None (which h "ffmpeg") || is_None (which h "ffprobe") then
    print "ffmpeg or ffprobe is not installed. Please install them before running this script."
  else if negb (isdir h video_folder) || negb (path_exists h common_clip) then
    print "Specified video folder or common clip file does not exist."
  else
    let video_files := glob h (PyStr.path_join video_folder "*") in
    match video_files with
    | [] => print "No video files found in the specified directory."
    | _ :: _ =>
        with_TemporaryDirectory
          (workspace_block video_folder common_clip fade_duration output_file
             video_files)
    end.

End Script.

(** ** Reading a run *)

Definition job : Type := string * (pyfloat * PyDict.t string).

Definition runs (tr : list event) : list command :=
  flat_map (fun e => match e with Run c _ => [c] | _ => [] end) tr.

Definition printed (tr : list event) : list string :=
  flat_map (fun e => match e with Print t => [t] | _ => [] end) tr.

Definition written (tr : list event) : list (string * list string) :=
  flat_map (fun e => match e with WriteFile p c => [(p, c)] | _ => [] end) tr.

Definition is_encode (c : command) : bool :=
  match c with
  | Encode _ _ _ _ _ _ => true
  | Concat _ _ => false
  end.

Definition encodes (tr : list event) : list command := filter is_encode (runs tr).

Definition input_of (c : command) : string :=
  match c with
  | Encode video_file _ _ _ _ _ => video_file
  | Concat concat_list_path _ => concat_list_path
  end.

(** The exit status the host gives a command. *)
Definition succeeded (h : host) (c : command) : bool := fst (ffmpeg h c).

Definition failing (h : host) (c : command) : bool := negb (succeeded h c).

(** The paths one [run_command] creates: the log, and the output if the
    process leaves one. *)
Definition left_by (h : host) (c : command) (log_file_path : string) : list string :=
  ((if snd (ffmpeg h c) then [output_of c] else []) ++ [log_file_path])%list.

(** The keys [reencode_videos] reads, in the order it reads them. *)
Definition required_keys : list string :=
  ["input_i"; "input_lra"; "input_tp"; "input_thresh"; "target_offset"].

Definition has_key {V} (d : PyDict.t V) (k : string) : bool :=
  match PyDict.get k d with
  | Some _ => true
  | None => false
  end.

Definition has_required (d : PyDict.t string) : bool :=
  forallb (has_key d) required_keys.

Definition value_of (d : PyDict.t string) (k : string) : string :=
  match PyDict.get k d with
  | Some v => v
  | None => EmptyString
  end.

Definition audio_filters_of (d : PyDict.t string) : string :=
  "loudnorm=I=-23:LRA=7:TP=-1.5:measured_I=" ++ value_of d "input_i"
  ++ ":measured_LRA=" ++ value_of d "input_lra"
  ++ ":measured_TP=" ++ value_of d "input_tp"
  ++ ":measured_thresh=" ++ value_of d "input_thresh"
  ++ ":offset=" ++ value_of d "target_offset"
  ++ ":linear=true:print_format=summary".

(** The three pre-flight checks of [main]. *)
Definition preflight (h : host) (video_folder common_clip : string) : bool :=
  negb (is_None (which h "ffmpeg")) && negb (is_None (which h "ffprobe"))
  && isdir h video_folder && path_exists h common_clip
  && negb (match glob h (PyStr.path_join video_folder "*") with [] => true | _ => false end).

(** The state grew by these events and these paths. *)
Definition grows (new : list event) (added : list string) (s s' : state) : Prop :=
  trace s' = (trace s ++ new)%list /\ created s' = (added ++ created s)%list.


(** What the measurement loop learns about a file, read off the host. *)
Definition measured_duration (h : host) (video_file : string) : option pyfloat :=
  match ffprobe h video_file with
  | Exit0 stdout => PyFloat.of_string (PyStr.strip stdout)
  | CalledProcessError _ => None
  end.

Definition measured_loudness (h : host) (video_file : string)
  : option (PyDict.t string) :=
  match ffmpeg_loudnorm h video_file with
  | Exit0 result => Some (parse_loudness result)
  | CalledProcessError _ => None
  end.

Section Attempts.

Variables (temp_dir : string) (fade_duration : pyfloat).

(** The command clip job number [i] hands to the engine. *)
Definition attempt (i : nat) (j : job) (c : command) : Prop :=
  exists start_time whole,
    PyFloat.to_int (fst (snd j)) = Ok whole /\
    10 <= start_time <= whole - 70 /\
    has_required (snd (snd j)) = true /\
    c = Encode (fst j) start_time (Int 60) fade_duration
          (audio_filters_of (snd (snd j))) (temp_clip_path temp_dir i).

(** The commands of the first jobs of a list, numbered from [i]. *)
Inductive attempts : nat -> list job -> list command -> Prop :=
| attempts_none (i : nat) (jobs : list job) : attempts i jobs []
| attempts_more (i : nat) (j : job) (jobs : list job) (c : command)
    (cs : list command) :
    attempt i j c -> attempts (S i) jobs cs -> attempts i (j :: jobs) (c :: cs).

End Attempts.

(** A job the per-clip loop can carry out: a finite duration of at least
    80 seconds and the five statistics. *)
Definition job_ready (j : job) : Prop :=
  (exists d : Q, fst (snd j) = Finite d /\ (80 <= d)%Q) /\
  has_required (snd (snd j)) = true.

Definition failure_line (c : command) : string :=
  "Failed to process video: " ++ input_of c.

(** The events of lines 120-129 for a given list of produced clips. *)
Definition assembly_events (h : host)
    (temp_dir ffmpeg_logs_dir common_clip_temp output_file : string)
    (clip_list : list string) : list event :=
  let concat_list_path := PyStr.path_join temp_dir "concat_list.txt" in
  let concat_log := PyStr.path_join ffmpeg_logs_dir "concat.log" in
  let concat := Concat concat_list_path output_file in
  ([WriteFile concat_list_path (concat_list_entries common_clip_temp 0 clip_list);
    Run concat concat_log]
   ++ (if succeeded h concat then []
       else [Print ("Failed to concatenate videos. See " ++ concat_log)]))%list.

(** What line 93-96 keep of a file: its duration and statistics, when the
    duration is truthy and at least 80 and the statistics are a non-empty
    dictionary. *)
Definition retained (h : host) (video_file : string)
  : option (pyfloat * PyDict.t string) :=
  match measured_duration h video_file with
  | Some d =>
      if PyFloat.truthy d && PyFloat.ge_int d 80 then
        match measured_loudness h video_file with
        | Some info => if PyDict.truthy info then Some (d, info) else None
        | None => None
        end
      else None
  | None => None
  end.

Definition loudness_log_path (ffmpeg_logs_dir : string) (i : nat) : string :=
  PyStr.path_join ffmpeg_logs_dir ("loudness_" ++ PyStr.pad4 i ++ ".log").

(** ** A concrete host, for running the definitions on examples *)

Module Studio.

Definition quote : string := String (ascii_of_nat 34) EmptyString.
Definition tab : string := String (ascii_of_nat 9) EmptyString.

(** One line of the JSON block ffmpeg's loudnorm filter prints. *)
Definition json_line (key value : string) : string :=
  tab ++ quote ++ key ++ quote ++ " : " ++ quote ++ value ++ quote ++ "," ++ nl.

(** The report of a loudness analysis pass, as ffmpeg prints it. *)
Definition loudnorm_report : string :=
  "[Parsed_loudnorm_0 @ 0x5581] " ++ nl ++ "{" ++ nl
  ++ json_line "input_i" "-27.61"
  ++ json_line "input_tp" "-4.47"
  ++ json_line "input_lra" "18.06"
  ++ json_line "input_thresh" "-39.20"
  ++ json_line "output_i" "-22.03"
  ++ json_line "output_tp" "-1.50"
  ++ json_line "output_lra" "14.78"
  ++ json_line "output_thresh" "-33.42"
  ++ json_line "normalization_type" "dynamic"
  ++ tab ++ quote ++ "target_offset" ++ quote ++ " : " ++ quote ++ "-0.97" ++ quote ++ nl
  ++ "}" ++ nl.

(** Statistics under the bare key names [reencode_videos] looks up. *)
Definition stats : PyDict.t string :=
  [("input_i", "-27.61"); ("input_lra", "18.06"); ("input_tp", "-4.47");
   ("input_thresh", "-39.20"); ("target_offset", "-0.97")].

Definition a := "/videos/a.mp4".   (* 50 seconds *)
Definition b := "/videos/b.mp4".   (* 90.5 seconds; its encode succeeds *)
Definition c := "/videos/c.mp4".   (* 200 seconds; its encode fails *)
Definition d := "/videos/d.mp4".   (* 100 seconds; analysis prints no colon *)
Definition e := "/videos/e.mp4".   (* the probe prints N/A *)

Definition host : host := {|
  which := fun name => Some ("/usr/bin/" ++ name);
  isdir := fun _ => true;
  path_exists := fun _ => true;
  glob := fun _ => [a; b; c];
  mkdtemp := "/tmp/tmpk3v9";
  entropy := fun n => (7 * n + 3)%nat;
  ffprobe := fun f =>
    if (f =? a)%string then Exit0 ("50.0" ++ nl)
    else if (f =? b)%string then Exit0 ("90.5" ++ nl)
    else if (f =? c)%string then Exit0 ("200.000000" ++ nl)
    else if (f =? d)%string then Exit0 ("100.0" ++ nl)
    else if (f =? e)%string then Exit0 ("N/A" ++ nl)
    else CalledProcessError "Invalid data found when processing input";
  ffmpeg_loudnorm := fun f =>
    if (f =? d)%string then Exit0 "loudnorm finished"
    else if (f =? b)%string || (f =? c)%string then Exit0 loudnorm_report
    else CalledProcessError "Invalid data found when processing input";
  ffmpeg := fun cmd =>
    match cmd with
    | Encode f _ _ _ _ _ => ((f =? b)%string, (f =? b)%string)
    | Concat _ output_file =>
        ((output_file =? "out.mp4")%string, (output_file =? "out.mp4")%string)
    end
|}.

Definition temp_dir : string := mkdtemp host.
Definition logs : string := PyStr.path_join temp_dir "logs".
Definition common : string := PyStr.path_join temp_dir "common_clip.mp4".

(** Two planned jobs: [b] and [c] with their measured durations. *)
Definition jobs : PyDict.t (pyfloat * PyDict.t string) :=
  [(b, (Finite (181 # 2), stats)); (c, (Finite 200, stats))].

End Studio.



(** ** The rest of the script *)

(** Lines 11-12 of [draw_progress_bar]: the text between the two bars.
    [s * k] repeats a string, a negative count giving the empty string. *)
Module ProgressBar.




End ProgressBar.

(** Lines 131-141: the script run as a program.  A process ends with an
    exit status, or with an exception nobody caught, which the interpreter
    turns into a traceback and status 1. *)
Inductive exit : Type :=
| Exited (status : Z)
| Uncaught (e : exn).

Definition exit_status (x : exit) : Z :=
  match x with
  | Exited status => status
  | Uncaught _ => 1
  end.

Definition usage_line : string :=
  "Usage: python script_name.py /path/to/video/folder /path/to/common_clip.mp4 fade_duration_in_seconds output_file_name.mp4".

(** [argv] is [sys.argv], the script's own name first. *)
Definition script (h : host) (argv : list string) (s : state) : exit * state :=
  match argv with
  | [_; video_folder_path; common_clip_path; fade; output_file_name] =>
      match PyFloat.of_string fade with
      | Some fade_duration_seconds =>
          match main h video_folder_path common_clip_path fade_duration_seconds
                  output_file_name s with
          | (Ok _, s') => (Exited 0, s')
          | (Raise e, s') => (Uncaught e, s')
          end
      | None => (Uncaught (ValueError "could not convert string to float"), s)
      end
  | _ => (Exited 1, emit (Print usage_line) s)
  end.

(** The three messages of the pre-flight checks, in the order of the checks. *)
Definition preflight_messages : list string :=
  ["ffmpeg or ffprobe is not installed. Please install them before running this script.";
   "Specified video folder or common clip file does not exist.";
   "No video files found in the specified directory."].

(** Text for stating what the parser of [analyze_loudness] does. *)
Definition newline : ascii := ascii_of_nat 10.

Definition one_line (s : string) : bool := negb (PyStr.contains newline s).

Definition stripped (s : string) : bool := (PyStr.strip s =? s)%string.

(** A dictionary written out one [key:value] per line. *)
Definition report_of (d : PyDict.t string) : string :=
  String.concat nl (map (fun kv => fst kv ++ ":" ++ snd kv) d).

(** Keys and values that survive the parser unchanged. *)
Definition clean_entry (kv : string * string) : bool :=
  negb (PyStr.contains ":" (fst kv)) && one_line (fst kv) && stripped (fst kv)
  && one_line (snd kv) && stripped (snd kv).

(** What the parser lets through as a key and as a value. *)
Definition tidy (kv : string * string) : Prop :=
  PyStr.contains ":" (fst kv) = false /\ one_line (fst kv) = true /\
  stripped (fst kv) = true /\ one_line (snd kv) = true /\ stripped (snd kv) = true.

(** Decimal text as [str] writes it: a single zero, or digits the first of
    which is not zero. *)
Definition canonical (d : string) : Prop :=
  d = "0" \/ exists c rest, d = String c rest /\ c <> "0"%char.

Definition common_clip_log (ffmpeg_logs_dir : string) : string :=
  PyStr.path_join ffmpeg_logs_dir "common_clip.log".

Definition concat_log_path (ffmpeg_logs_dir : string) : string :=
  PyStr.path_join ffmpeg_logs_dir "concat.log".


(** The [(prefix, progress, total)] of the progress bars drawn. *)
Definition progress_of (tr : list event) : list (string * nat * nat) :=
  flat_map (fun e => match e with Progress p i t => [(p, i, t)] | _ => [] end) tr.

(** The entry lines 93-96 add for a file, if any. *)
Definition kept (h : host) (video_file : string)
  : list (string * (pyfloat * PyDict.t string)) :=
  match retained h video_file with
  | Some v => [(video_file, v)]
  | None => []
  end.

(** ** The library model on examples *)

Example float_of_integer_text : PyFloat.of_string "80" = Some (Finite 80).
Proof. reflexivity. Qed.

Example float_rounds_to_binary64 :
  PyFloat.of_string "0.1" = Some (Finite (3602879701896397 # 36028797018963968)).
Proof. reflexivity. Qed.

Example float_rounds_up_to_80 :
  PyFloat.of_string "79.99999999999999999999" = Some (Finite 80).
Proof. reflexivity. Qed.

Example float_strips_and_reads_exponents :
  PyFloat.of_string ("  1_0.5e1" ++ nl) = Some (Finite 105).
Proof. reflexivity. Qed.

Example float_overflows_to_infinity :
  PyFloat.of_string "-1e999" = Some (Infinity true).
Proof. vm_compute. reflexivity. Qed.

Example float_of_words :
  PyFloat.of_string "nan" = Some NaN /\ PyFloat.of_string "Infinity" = Some (Infinity false).
Proof. split; reflexivity. Qed.

Example float_refuses_other_text :
  map PyFloat.of_string ["N/A"; EmptyString; "1e"; "1__0"; "."; "0x10"]
  = [None; None; None; None; None; None].
Proof. reflexivity. Qed.

Example pad4_examples :
  map PyStr.pad4 [0; 7; 42; 1234]%nat = ["0000"; "0007"; "0042"; "1234"].
Proof. vm_compute. reflexivity. Qed.

Example path_join_examples :
  PyStr.path_join "/tmp/x" "logs" = "/tmp/x/logs" /\
  PyStr.path_join "/tmp/x/" "logs" = "/tmp/x/logs" /\
  PyStr.path_join "/tmp/x" "/abs" = "/abs".
Proof. repeat split; reflexivity. Qed.

Example parse_loudness_example :
  parse_loudness ("input_i : -27.6" ++ nl ++ "no colon here" ++ nl ++ " a:b:c ")
  = [("input_i", "-27.6"); ("a", "b:c")].
Proof. reflexivity. Qed.

(** ** Text and path facts *)

Lemma prefix_append (a b : string) : String.prefix a (a ++ b) = true.
Proof.
  induction a as [|c a IH]; simpl.
  - now destruct b.
  - destruct (ascii_dec c c) as [_|N]; [exact IH | now elim N].
Qed.

Lemma append_assoc (a b c : string) : (a ++ b) ++ c = a ++ (b ++ c).
Proof. induction a as [|x a IH]; simpl; [reflexivity | now rewrite IH]. Qed.

Lemma append_cancel_l (a x y : string) : a ++ x = a ++ y -> x = y.
Proof.
  induction a as [|c a IH]; simpl; intros H; [exact H|].
  injection H as H. now apply IH.
Qed.

Lemma dir_prefix_extends (a : string) : exists t, PyStr.dir_prefix a = a ++ t.
Proof.
  unfold PyStr.dir_prefix.
  destruct ((a =? EmptyString)%string || PyStr.ends_with_slash a).
  - exists EmptyString. induction a as [|c a IH]; simpl; [reflexivity | now rewrite <- IH].
  - now exists "/".
Qed.

Lemma inside_join (dir name : string) :
  PyStr.starts_with_slash name = false ->
  inside dir (PyStr.path_join dir name) = true.
Proof.
  intros Hn. unfold inside, PyStr.path_join. rewrite Hn.
  rewrite prefix_append. apply orb_true_r.
Qed.

Lemma inside_join_join (dir sub name : string) :
  PyStr.starts_with_slash sub = false ->
  PyStr.starts_with_slash name = false ->
  inside dir (PyStr.path_join (PyStr.path_join dir sub) name) = true.
Proof.
  intros Hs Hn. unfold inside, PyStr.path_join. rewrite Hs, Hn.
  destruct (dir_prefix_extends (PyStr.dir_prefix dir ++ sub)) as [t Ht].
  rewrite Ht, !append_assoc, prefix_append. apply orb_true_r.
Qed.


Lemma temp_clip_inside (temp_dir : string) (i : nat) :
  inside temp_dir (temp_clip_path temp_dir i) = true.
Proof. apply inside_join. reflexivity. Qed.

Lemma video_log_inside (temp_dir : string) (i : nat) :
  inside temp_dir (video_log_path (PyStr.path_join temp_dir "logs") i) = true.
Proof. apply inside_join_join; reflexivity. Qed.

(** ** Facts about the monad and the primitives *)

Lemma bind_inv {A B} (c : M A) (k : A -> M B) (s : state) r s' :
  bind c k s = (r, s') ->
  (exists a s1, c s = (Ok a, s1) /\ k a s1 = (r, s')) \/
  (exists e, c s = (Raise e, s') /\ r = Raise e).
Proof.
  unfold bind. destruct (c s) as [[a|e] s1]; intros H.
  - left. now exists a, s1.
  - right. injection H as <- <-. now exists e.
Qed.

Lemma bind_ok {A B} (c : M A) (k : A -> M B) (s : state) a s1 :
  c s = (Ok a, s1) -> bind c k s = k a s1.
Proof. unfold bind. now intros ->. Qed.

Lemma bind_raise {A B} (c : M A) (k : A -> M B) (s : state) e s1 :
  c s = (Raise e, s1) -> bind c k s = (Raise e, s1).
Proof. unfold bind. now intros ->. Qed.

Lemma grows_refl (s : state) : grows [] [] s s.
Proof. split; [now rewrite app_nil_r | reflexivity]. Qed.

Lemma grows_trans n1 a1 n2 a2 (s s1 s2 : state) :
  grows n1 a1 s s1 -> grows n2 a2 s1 s2 -> grows (n1 ++ n2) (a2 ++ a1) s s2.
Proof.
  intros [T1 C1] [T2 C2]. split.
  - now rewrite T2, T1, app_assoc.
  - now rewrite C2, C1, app_assoc.
Qed.

Lemma grows_emit (e : event) (s : state) : grows [e] [] s (emit e s).
Proof. now split. Qed.

Lemma grows_create (p : string) (s : state) : grows [] [p] s (create p s).
Proof. split; simpl; [now rewrite app_nil_r | reflexivity]. Qed.

Lemma runs_app (a b : list event) : runs (a ++ b) = (runs a ++ runs b)%list.
Proof. apply flat_map_app. Qed.

Lemma printed_app (a b : list event) : printed (a ++ b) = (printed a ++ printed b)%list.
Proof. apply flat_map_app. Qed.

Lemma written_app (a b : list event) : written (a ++ b) = (written a ++ written b)%list.
Proof. apply flat_map_app. Qed.

Lemma encodes_app (a b : list event) : encodes (a ++ b) = (encodes a ++ encodes b)%list.
Proof. unfold encodes. now rewrite runs_app, filter_app. Qed.

Section Primitives.

Variable h : host.

Lemma randbelow_run (n : nat) (s : state) :
  exists r s', randbelow h n s = (Ok r, s') /\ grows [] [] s s'
               /\ (n <> 0%nat -> (r < n)%nat).
Proof.
  eexists _, _. split; [reflexivity|]. split.
  - split; simpl; [now rewrite app_nil_r | reflexivity].
  - intros Hn. now apply Nat.mod_upper_bound.
Qed.

Lemma randint_run (a b : Z) (s : state) :
  a <= b ->
  exists r s', randint h a b s = (Ok r, s') /\ grows [] [] s s' /\ a <= r <= b.
Proof.
  intros Hab. unfold randint.
  destruct (b <? a) eqn:E; [apply Z.ltb_lt in E; lia|].
  destruct (randbelow_run (Z.to_nat (b - a + 1)) s) as (r & s' & Hr & Hg & Hlt).
  exists (a + Z.of_nat r), s'. rewrite (bind_ok _ _ _ _ _ Hr).
  split; [reflexivity|]. split; [exact Hg|].
  assert (r < Z.to_nat (b - a + 1))%nat by (apply Hlt; lia). lia.
Qed.

Lemma randint_inv (a b : Z) (s : state) r s' :
  randint h a b s = (r, s') ->
  grows [] [] s s' /\ forall z, r = Ok z -> a <= z <= b.
Proof.
  unfold randint. destruct (b <? a) eqn:E.
  - intros H. injection H as <- <-. split; [apply grows_refl | discriminate].
  - apply Z.ltb_ge in E. intros H.
    destruct (randint_run a b s E) as (z & s1 & Hz & Hg & Hb).
    unfold randint in Hz. rewrite (proj2 (Z.ltb_ge b a) E) in Hz.
    rewrite Hz in H. injection H as <- <-.
    split; [exact Hg|]. intros z' Hz'. now injection Hz' as <-.
Qed.

Lemma run_command_run (cmd : command) (log : string) (s : state) :
  exists s', run_command h cmd log s = (Ok (succeeded h cmd), s')
             /\ grows [Run cmd log] (left_by h cmd log) s s'.
Proof.
  unfold run_command, succeeded, left_by.
  destruct (ffmpeg h cmd) as [ok left]. simpl.
  eexists. split; [reflexivity|].
  destruct left; split; reflexivity.
Qed.

Lemma getitem_present (d : PyDict.t string) (k : string) (s : state) :
  has_key d k = true -> getitem d k s = (Ok (value_of d k), s).
Proof.
  unfold has_key, getitem, value_of.
  destruct (PyDict.get k d); [reflexivity | discriminate].
Qed.

Lemma getitem_missing (d : PyDict.t string) (k : string) (s : state) :
  has_key d k = false -> getitem d k s = (Raise (KeyError k), s).
Proof.
  unfold has_key, getitem.
  destruct (PyDict.get k d); [discriminate | reflexivity].
Qed.

(** With the five keys present the call is the engine invocation. *)
Lemma reencode_videos_present video_file start_time duration output_path
    log_file_path fade_duration (d : PyDict.t string) (s : state) :
  has_required d = true ->
  reencode_videos h video_file start_time duration output_path log_file_path
    fade_duration d s
  = run_command h
      (Encode video_file start_time duration fade_duration (audio_filters_of d)
         output_path) log_file_path s.
Proof.
  unfold has_required, required_keys. simpl forallb.
  rewrite !andb_true_iff. intros (K1 & K2 & K3 & K4 & K5 & _).
  unfold reencode_videos.
  rewrite (bind_ok _ _ _ _ _ (getitem_present d _ s K1)).
  rewrite (bind_ok _ _ _ _ _ (getitem_present d _ s K2)).
  rewrite (bind_ok _ _ _ _ _ (getitem_present d _ s K3)).
  rewrite (bind_ok _ _ _ _ _ (getitem_present d _ s K4)).
  rewrite (bind_ok _ _ _ _ _ (getitem_present d _ s K5)).
  reflexivity.
Qed.

(** With one of them missing the call raises before anything runs. *)
Lemma reencode_videos_missing video_file start_time duration output_path
    log_file_path fade_duration (d : PyDict.t string) (s : state) :
  has_required d = false ->
  exists k, In k required_keys /\ has_key d k = false /\
    reencode_videos h video_file start_time duration output_path log_file_path
      fade_duration d s = (Raise (KeyError k), s).
Proof.
  unfold has_required, required_keys. simpl forallb. intros Hm.
  unfold reencode_videos.
  destruct (has_key d "input_i") eqn:K1;
    [rewrite (bind_ok _ _ _ _ _ (getitem_present d _ s K1))
    | exists "input_i"; rewrite (bind_raise _ _ _ _ _ (getitem_missing d _ s K1));
      simpl; auto 10].
  destruct (has_key d "input_lra") eqn:K2;
    [rewrite (bind_ok _ _ _ _ _ (getitem_present d _ s K2))
    | exists "input_lra"; rewrite (bind_raise _ _ _ _ _ (getitem_missing d _ s K2));
      simpl; auto 10].
  destruct (has_key d "input_tp") eqn:K3;
    [rewrite (bind_ok _ _ _ _ _ (getitem_present d _ s K3))
    | exists "input_tp"; rewrite (bind_raise _ _ _ _ _ (getitem_missing d _ s K3));
      simpl; auto 10].
  destruct (has_key d "input_thresh") eqn:K4;
    [rewrite (bind_ok _ _ _ _ _ (getitem_present d _ s K4))
    | exists "input_thresh"; rewrite (bind_raise _ _ _ _ _ (getitem_missing d _ s K4));
      simpl; auto 10].
  destruct (has_key d "target_offset") eqn:K5;
    [discriminate Hm
    | exists "target_offset"; rewrite (bind_raise _ _ _ _ _ (getitem_missing d _ s K5));
      simpl; auto 10].
Qed.

End Primitives.

(** ** The start offset (line 107) *)

Lemma to_int_finite_bounds (d : Q) :
  (0 <= d)%Q ->
  exists whole, PyFloat.to_int (Finite d) = Ok whole /\
    (inject_Z whole <= d)%Q /\ (d < inject_Z (whole + 1))%Q.
Proof.
  intros Hd. destruct d as [n den]. unfold Qle in Hd. simpl in Hd.
  assert (Hn : 0 <= n) by lia.
  exists (n / Zpos den). simpl. split.
  - now rewrite Z.quot_div_nonneg by lia.
  - unfold Qle, Qlt. simpl.
    pose proof (Z.mul_div_le n (Zpos den) ltac:(lia)).
    pose proof (Z.mul_succ_div_gt n (Zpos den) ltac:(lia)).
    split; nia.
Qed.

Section StartOffset.

Variable h : host.

Lemma pick_start_time_run (d : Q) (s : state) :
  (80 <= d)%Q ->
  exists start_time whole s',
    pick_start_time h (Finite d) s = (Ok start_time, s') /\
    PyFloat.to_int (Finite d) = Ok whole /\
    10 <= start_time <= whole - 70 /\
    (inject_Z whole <= d)%Q /\ grows [] [] s s'.
Proof.
  intros Hd.
  destruct (to_int_finite_bounds d) as (whole & Hw & Hlo & Hhi).
  { apply Qle_trans with (2 := Hd). discriminate. }
  assert (Hwhole : 80 <= whole).
  { assert (H : (80 < inject_Z (whole + 1))%Q) by (eapply Qle_lt_trans; eauto).
    unfold Qlt in H. simpl in H. lia. }
  destruct (randint_run h 10 (whole - 70) s ltac:(lia)) as (st & s' & Hr & Hg & Hb).
  exists st, whole, s'. unfold pick_start_time.
  rewrite (bind_ok (lift (PyFloat.to_int (Finite d))) _ s whole s)
    by (unfold lift; now rewrite Hw).
  auto.
Qed.

Lemma pick_start_time_inv (duration : pyfloat) (s : state) r s' :
  pick_start_time h duration s = (r, s') ->
  grows [] [] s s' /\
  forall start_time, r = Ok start_time ->
    exists whole, PyFloat.to_int duration = Ok whole /\
                  10 <= start_time <= whole - 70.
Proof.
  unfold pick_start_time. intros H.
  apply bind_inv in H as [(whole & s1 & Hl & Hr) | (e & Hl & ->)].
  - unfold lift in Hl. injection Hl as Hw <-.
    apply randint_inv in Hr as [Hg Hb]. split; [exact Hg|].
    intros st ->. exists whole. split; [exact Hw | now apply Hb].
  - unfold lift in Hl. injection Hl as _ <-.
    split; [apply grows_refl | discriminate].
Qed.

End StartOffset.

(** At the two boundary durations: 80 seconds leaves offset 10 only, 81
    seconds leaves 10 and 11. *)
Lemma start_offset_at_the_boundaries (h : host) (s : state) :
  (exists s', pick_start_time h (Finite 80) s = (Ok 10, s')) /\
  (exists start_time s',
     pick_start_time h (Finite 81) s = (Ok start_time, s') /\
     (start_time = 10 \/ start_time = 11)).
Proof.
  split.
  - destruct (pick_start_time_run h 80 s ltac:(discriminate))
      as (st & whole & s' & Hrun & Hw & Hb & _).
    injection Hw as <-. exists s'.
    replace st with 10 in Hrun by (simpl in Hb; lia). exact Hrun.
  - destruct (pick_start_time_run h 81 s ltac:(discriminate))
      as (st & whole & s' & Hrun & Hw & Hb & _).
    injection Hw as <-. exists st, s'. split; [exact Hrun|]. simpl in Hb. lia.
Qed.

(** C2.  Whatever the random source draws, a candidate whose measured
    duration [d] is at least 80 seconds gets a start offset [s] with
    [10 <= s <= d - 70], so that [s + 60 + 10 <= d]; the draw itself
    never fails on such a duration. *)
Theorem C2_start_offset_leaves_both_margins (h : host) (d : Q) (s : state) :
  (80 <= d)%Q ->
  exists start_time s',
    pick_start_time h (Finite d) s = (Ok start_time, s') /\
    (inject_Z 10 <= inject_Z start_time)%Q /\
    (inject_Z start_time <= d - inject_Z 70)%Q /\
    (inject_Z start_time + inject_Z 60 + inject_Z 10 <= d)%Q.
Proof.
  intros Hd.
  destruct (pick_start_time_run h d s Hd) as (st & whole & s' & Hrun & _ & Hb & Hw & _).
  exists st, s'. split; [exact Hrun|].
  assert (Hst : (inject_Z (st + 70) <= d)%Q).
  { apply Qle_trans with (2 := Hw). rewrite <- Zle_Qle. lia. }
  rewrite inject_Z_plus in Hst.
  split; [rewrite <- Zle_Qle; lia|].
  split.
  - apply Qplus_le_l with (z := inject_Z 70).
    eapply Qle_trans; [exact Hst|]. ring_simplify. apply Qle_refl.
  - eapply Qle_trans; [|exact Hst].
    rewrite <- Qplus_assoc, <- (inject_Z_plus 60 10). apply Qle_refl.
Qed.

(** ** The concat list (lines 122-125) *)

Lemma length_append (a b : string) :
  String.length (a ++ b) = (String.length a + String.length b)%nat.
Proof. induction a as [|c a IH]; simpl; [reflexivity | now rewrite IH]. Qed.

Lemma append_cancel_r (t a b : string) : a ++ t = b ++ t -> a = b.
Proof.
  revert b. induction a as [|c a IH]; intros [|c' b] H; simpl in H.
  - reflexivity.
  - apply (f_equal String.length) in H. simpl in H. rewrite length_append in H. lia.
  - apply (f_equal String.length) in H. simpl in H. rewrite length_append in H. lia.
  - injection H as -> H. f_equal. now apply IH.
Qed.


Section ConcatList.

Variable common : string.









End ConcatList.

(** ** The per-clip loop (lines 105-116) *)

Lemma grows_quiet_then n a (s s1 s2 : state) :
  grows [] [] s s1 -> grows n a s1 s2 -> grows n a s s2.
Proof.
  intros G1 G2. pose proof (grows_trans _ _ _ _ _ _ _ G1 G2) as G.
  now rewrite app_nil_r in G.
Qed.

Lemma grows_then_quiet n a (s s1 s2 : state) :
  grows n a s s1 -> grows [] [] s1 s2 -> grows n a s s2.
Proof.
  intros G1 G2. pose proof (grows_trans _ _ _ _ _ _ _ G1 G2) as G.
  now rewrite app_nil_r in G.
Qed.

Section EncodeLoop.

Variables (h : host) (temp_dir logs : string) (fade_duration : pyfloat).

Lemma encode_clip_run (i : nat) (j : job) clips failed (s : state) r s' :
  encode_clip h temp_dir logs fade_duration i j clips failed s = (r, s') ->
  (exists e, r = Raise e /\ grows [] [] s s') \/
  (exists c, attempt temp_dir fade_duration i j c /\
     r = Ok (if succeeded h c then ((clips ++ [output_of c])%list, failed)
             else (clips, S failed)) /\
     grows (Run c (video_log_path logs i)
              :: (if succeeded h c then [] else [Print (failure_line c)]))
           (left_by h c (video_log_path logs i)) s s').
Proof.
  destruct j as [f [d info]]. unfold encode_clip. intros H.
  apply bind_inv in H as [(st & s1 & Hp & H) | (e & Hp & ->)].
  2:{ left. exists e. split; [reflexivity|].
      now apply pick_start_time_inv in Hp as [Hg _]. }
  apply pick_start_time_inv in Hp as [Hg Hb].
  destruct (Hb st eq_refl) as (whole & Hw & Hbd).
  destruct (has_required info) eqn:Hk.
  - set (c := Encode f st (Int 60) fade_duration (audio_filters_of info)
                (temp_clip_path temp_dir i)).
    destruct (run_command_run h c (video_log_path logs i) s1) as (s2 & Hrc & Hg2).
    rewrite (bind_ok _ _ s1 (succeeded h c) s2) in H
      by (rewrite reencode_videos_present by exact Hk; exact Hrc).
    right. exists c. split.
    { exists st, whole. simpl. auto. }
    destruct (succeeded h c).
    + injection H as <- <-. split; [reflexivity|].
      eapply grows_quiet_then; eauto.
    + unfold bind, print, effect, ret in H. injection H as <- <-.
      split; [reflexivity|].
      eapply grows_quiet_then; [exact Hg|].
      apply (grows_trans _ _ _ _ _ _ _ Hg2 (grows_emit _ s2)).
  - destruct (reencode_videos_missing h f st (Int 60) (temp_clip_path temp_dir i)
                (video_log_path logs i) fade_duration info s1 Hk)
      as (k & _ & _ & Hre).
    rewrite (bind_raise _ _ _ _ _ Hre) in H. injection H as <- <-.
    left. eexists. split; [reflexivity | exact Hg].
Qed.

(** A ready job always reaches the engine. *)
Lemma encode_clip_total (i : nat) (j : job) clips failed (s : state) :
  job_ready j ->
  exists res s', encode_clip h temp_dir logs fade_duration i j clips failed s
                 = (Ok res, s').
Proof.
  destruct j as [f [d info]]. intros [(q & Hq & Hd) Hk]. simpl in Hq, Hk. subst d.
  destruct (pick_start_time_run h q s Hd) as (st & whole & s1 & Hp & _).
  unfold encode_clip. rewrite (bind_ok _ _ _ _ _ Hp).
  set (c := Encode f st (Int 60) fade_duration (audio_filters_of info)
              (temp_clip_path temp_dir i)).
  destruct (run_command_run h c (video_log_path logs i) s1) as (s2 & Hrc & _).
  rewrite (bind_ok _ _ s1 (succeeded h c) s2)
    by (rewrite reencode_videos_present by exact Hk; exact Hrc).
  destruct (succeeded h c); eexists _, _; reflexivity.
Qed.

(** What a run of the loop leaves behind, however it ends. *)
Lemma encode_clips_run (total : nat) (jobs : list job) :
  forall (i : nat) clips failed (s : state) r s',
    encode_clips h temp_dir logs fade_duration total i jobs clips failed s = (r, s') ->
    exists new added cs,
      grows new added s s' /\
      runs new = cs /\ encodes new = cs /\ written new = [] /\
      attempts temp_dir fade_duration i jobs cs /\
      incl added (flat_map (fun ic => left_by h (snd ic) (video_log_path logs (fst ic)))
                    (combine (seq i (List.length cs)) cs)) /\
      forall res, r = Ok res ->
        List.length cs = List.length jobs /\
        res = ((clips ++ map output_of (filter (succeeded h) cs))%list,
               (failed + List.length (filter (failing h) cs))%nat) /\
        printed new = map failure_line (filter (failing h) cs).
Proof.
  induction jobs as [|j rest IH]; intros i clips failed s r s' H.
  - simpl in H. injection H as <- <-.
    exists [], [], []. split; [apply grows_refl|].
    repeat split; try constructor.
    + intros x [].
    + injection H as <-. now rewrite app_nil_r, Nat.add_0_r.
  - cbn [encode_clips] in H.
    apply bind_inv in H as [([clips1 failed1] & s1 & Hc & H) | (e & Hc & ->)].
    2:{ apply encode_clip_run in Hc as [(e' & _ & Hg) | (c & _ & Hr & _)];
          [|discriminate Hr].
        exists [], [], []. split; [exact Hg|].
        repeat split; try constructor; try discriminate. intros x []. }
    apply encode_clip_run in Hc as [(e' & Hr & _) | (c & Ha & Hr & Hg)];
      [discriminate Hr|].
    injection Hr as Hres.
    set (log := video_log_path logs i) in *.
    set (step := Run c log :: (if succeeded h c then [] else [Print (failure_line c)])) in *.
    assert (Hstep_runs : runs step = [c]) by (subst step; now destruct (succeeded h c)).
    assert (Hstep_enc : encodes step = [c]).
    { unfold encodes. rewrite Hstep_runs.
      destruct Ha as (st & w & _ & _ & _ & ->). reflexivity. }
    assert (Hstep_wr : written step = []) by (subst step; now destruct (succeeded h c)).
    assert (Hstep_pr : printed step = map failure_line (filter (failing h) [c])).
    { subst step. unfold failing. simpl. now destruct (succeeded h c). }
    destruct total as [|total'].
    + (* the progress bar divides by zero *)
      unfold bind, draw_progress_bar, raise in H. injection H as <- <-.
      exists step, (left_by h c log), [c]. split; [exact Hg|].
      repeat split; auto; try discriminate.
      * constructor; [exact Ha | constructor].
      * simpl. rewrite app_nil_r. apply incl_refl.
    + unfold bind at 1, draw_progress_bar, effect in H.
      apply IH in H as (new & added & cs & Hg' & Hruns & Henc & Hwr & Hatt & Hincl & Hok).
      exists (step ++ Progress "Processing: " i (S total') :: new)%list,
             (added ++ left_by h c log)%list, (c :: cs).
      split.
      { apply (grows_trans _ _ _ _ _ _ _ Hg).
        apply (grows_trans [_] [] _ _ _ _ _ (grows_emit _ s1)) in Hg'.
        now rewrite app_nil_r in Hg'. }
      split; [rewrite runs_app, Hstep_runs; simpl; now rewrite Hruns|].
      split; [rewrite encodes_app, Hstep_enc; simpl; now rewrite <- Henc|].
      split; [rewrite written_app, Hstep_wr; simpl; exact Hwr|].
      split; [now constructor|].
      split.
      { cbn [List.length seq combine flat_map fst snd].
        apply incl_app; [apply incl_appr; exact Hincl | apply incl_appl, incl_refl]. }
      intros res ->. destruct (Hok _ eq_refl) as (Hlen & Hres' & Hpr).
      split; [simpl; now rewrite Hlen|].
      split.
      * rewrite Hres'. unfold failing in *. simpl.
        destruct (succeeded h c); injection Hres as -> ->; simpl.
        -- now rewrite <- app_assoc.
        -- f_equal. lia.
      * rewrite printed_app, Hstep_pr. cbn [printed flat_map app].
        fold (printed new). rewrite Hpr. unfold failing. simpl.
        now destruct (succeeded h c).
Qed.


End EncodeLoop.

Section Attempted.

Variables (temp_dir : string) (fade_duration : pyfloat).



Lemma attempts_are_encodes (i : nat) (jobs : list job) (cs : list command) :
  attempts temp_dir fade_duration i jobs cs ->
  Forall (fun c => exists k, output_of c = temp_clip_path temp_dir k /\
                             is_encode c = true) cs.
Proof.
  induction 1 as [|i j jobs c cs (st & w & _ & _ & _ & ->) _ IH];
    constructor; [now exists i | exact IH].
Qed.

Lemma attempts_length (i : nat) (jobs : list job) (cs : list command) :
  attempts temp_dir fade_duration i jobs cs ->
  (List.length cs <= List.length jobs)%nat.
Proof. induction 1; simpl; lia. Qed.

End Attempted.

(** ** The concat list and the concatenation (lines 120-129) *)

Section Assembly.

Variables (h : host) (temp_dir logs common : string) (fade_duration : pyfloat)
          (output_file : string).

Let concat_list_path := PyStr.path_join temp_dir "concat_list.txt".
Let concat_log := PyStr.path_join logs "concat.log".
Let concat := Concat concat_list_path output_file.
Let events := assembly_events h temp_dir logs common output_file.

Lemma assemble_run (clips : list string) (s : state) :
  exists s',
    assemble h temp_dir logs common output_file clips s = (Ok tt, s') /\
    grows (events clips)
          (left_by h concat concat_log ++ [concat_list_path]) s s'.
Proof.
  unfold assemble. fold concat_list_path concat_log concat.
  unfold bind at 1, write_file, effect.
  set (s1 := emit _ (create concat_list_path s)).
  assert (G1 : grows [WriteFile concat_list_path (concat_list_entries common 0 clips)]
                 [concat_list_path] s s1) by now split.
  destruct (run_command_run h concat concat_log s1) as (s2 & Hrc & G2).
  rewrite (bind_ok _ _ _ _ _ Hrc).
  pose proof (grows_trans _ _ _ _ _ _ _ G1 G2) as G.
  subst events. unfold assembly_events. fold concat_list_path concat_log concat.
  destruct (succeeded h concat).
  - exists s2. split; [reflexivity|]. now rewrite app_nil_r.
  - exists (emit (Print ("Failed to concatenate videos. See " ++ concat_log)) s2).
    split; [reflexivity|].
    pose proof (grows_trans _ _ _ _ _ _ _ G
                  (grows_emit (Print ("Failed to concatenate videos. See " ++ concat_log)) s2))
      as G'.
    simpl in G'. simpl. exact G'.
Qed.


End Assembly.



(** ** The measurement loop (lines 90-97) *)

Lemma dict_get_set_same {V} (k : string) (v : V) (d : PyDict.t V) :
  PyDict.get k (PyDict.set k v d) = Some v.
Proof.
  induction d as [|[k' v'] d IH]; simpl.
  - now rewrite String.eqb_refl.
  - destruct (k =? k')%string eqn:E; simpl; rewrite E; [reflexivity | exact IH].
Qed.

Lemma dict_get_set_other {V} (k k0 : string) (v : V) (d : PyDict.t V) :
  k <> k0 -> PyDict.get k (PyDict.set k0 v d) = PyDict.get k d.
Proof.
  intros Hk. induction d as [|[k' v'] d IH]; simpl.
  - now rewrite (proj2 (String.eqb_neq k k0) Hk).
  - destruct (k0 =? k')%string eqn:E; simpl.
    + apply String.eqb_eq in E as <-.
      now rewrite (proj2 (String.eqb_neq k k0) Hk).
    + destruct (k =? k')%string; [reflexivity | exact IH].
Qed.

Lemma ge_80_is_truthy (d : pyfloat) :
  PyFloat.ge_int d 80 = true -> PyFloat.truthy d = true.
Proof.
  destruct d as [q| |]; simpl; try reflexivity. intros H.
  apply Qle_bool_iff in H. apply negb_true_iff.
  destruct (Qeq_bool q 0) eqn:E; [|reflexivity].
  apply Qeq_bool_iff in E. rewrite E in H. now elim H.
Qed.

Section Measurement.

Variable h : host.

Lemma get_video_duration_run (video_file : string) (s : state) r s' :
  get_video_duration h video_file s = (r, s') ->
  (exists new, grows new [] s s' /\ runs new = [] /\ written new = []) /\
  (forall o, r = Ok o -> o = measured_duration h video_file) /\
  (forall e, r = Raise e ->
     exists stdout, ffprobe h video_file = Exit0 stdout /\
                    PyFloat.of_string (PyStr.strip stdout) = None).
Proof.
  unfold get_video_duration, measured_duration.
  destruct (ffprobe h video_file) as [stdout|output].
  - destruct (PyFloat.of_string (PyStr.strip stdout)) eqn:E;
      intros H; injection H as <- <-.
    + split; [exists []; auto using grows_refl|].
      split; [now intros o [= <-] | discriminate].
    + split; [exists []; auto using grows_refl|].
      split; [discriminate | intros e _; now exists stdout].
  - intros H. unfold bind, print, effect, ret in H. injection H as <- <-.
    split; [eexists [_]; split; [apply grows_emit | auto]|].
    split; [now intros o [= <-] | discriminate].
Qed.

Lemma analyze_loudness_run (video_file log : string) (s : state) :
  exists s' new added,
    analyze_loudness h video_file log s = (Ok (measured_loudness h video_file), s') /\
    grows new added s s' /\ runs new = [] /\ incl added [log].
Proof.
  unfold analyze_loudness, measured_loudness.
  destruct (ffmpeg_loudnorm h video_file) as [result|output].
  - exists s, [], []. split; [reflexivity|].
    split; [apply grows_refl|]. split; [reflexivity | apply incl_nil_l].
  - eexists _, [_; _], [log]. split; [reflexivity|].
    split; [split; simpl; [now rewrite <- app_assoc | reflexivity]|].
    split; [reflexivity | apply incl_refl].
Qed.

Lemma analyze_candidate_run (logs : string) (i : nat) (video_file : string)
    (acc : PyDict.t (pyfloat * PyDict.t string)) (s : state) r s' :
  analyze_candidate h logs i video_file acc s = (r, s') ->
  (exists new added, grows new added s s' /\ runs new = [] /\
                     incl added [loudness_log_path logs i]) /\
  (forall res, r = Ok res ->
     res = match retained h video_file with
           | Some v => PyDict.set video_file v acc
           | None => acc
           end) /\
  (forall e, r = Raise e -> exists msg, e = ValueError msg).
Proof.
  unfold analyze_candidate. intros H.
  apply bind_inv in H as [(o & s1 & Hd & H) | (e & Hd & ->)].
  2:{ pose proof Hd as Hd'.
      apply get_video_duration_run in Hd as ((new & G & Hr & _) & _ & _).
      split; [exists new, []; auto using incl_nil_l|].
      split; [discriminate|]. intros e' [= <-].
      unfold get_video_duration in Hd'.
      destruct (ffprobe h video_file);
        [destruct (PyFloat.of_string _); [discriminate Hd'|]; injection Hd' as <- _; eauto
        | discriminate Hd']. }
  apply get_video_duration_run in Hd as ((new & G & Hr & _) & Ho & _).
  specialize (Ho _ eq_refl). unfold retained. rewrite <- Ho.
  destruct o as [d|].
  2:{ injection H as <- <-.
      split; [exists new, []; auto using incl_nil_l|].
      split; [now intros res [= <-] | discriminate]. }
  destruct (PyFloat.truthy d && PyFloat.ge_int d 80).
  2:{ injection H as <- <-.
      split; [exists new, []; auto using incl_nil_l|].
      split; [now intros res [= <-] | discriminate]. }
  destruct (analyze_loudness_run video_file (loudness_log_path logs i) s1)
    as (s2 & new2 & added2 & Ha & G2 & Hr2 & Hin).
  fold (loudness_log_path logs i) in H.
  rewrite (bind_ok _ _ _ _ _ Ha) in H.
  assert (Hgrow : exists new added, grows new added s s2 /\ runs new = [] /\
                    incl added [loudness_log_path logs i]).
  { exists (new ++ new2)%list, (added2 ++ [])%list.
    split; [eapply grows_trans; eauto|].
    split; [now rewrite runs_app, Hr, Hr2 | now rewrite app_nil_r]. }
  destruct (measured_loudness h video_file) as [info|].
  - destruct (PyDict.truthy info); injection H as <- <-;
      (split; [exact Hgrow|]); (split; [now intros res [= <-] | discriminate]).
  - injection H as <- <-.
    split; [exact Hgrow|]. split; [now intros res [= <-] | discriminate].
Qed.

(** The loop, however it ends: no engine run, only loudness logs created;
    when it ends normally, the dictionary holds exactly the retained files. *)
Lemma analyze_candidates_run (logs : string) (total : nat)
    (video_files : list string) :
  forall (i : nat) (acc : PyDict.t (pyfloat * PyDict.t string)) (s : state) r s',
    analyze_candidates h logs total i video_files acc s = (r, s') ->
    (exists new added,
       grows new added s s' /\ runs new = [] /\
       forall p, In p added -> exists k, p = loudness_log_path logs k) /\
    (forall res, r = Ok res ->
       forall f, PyDict.get f res
                 = match (if in_dec string_dec f video_files
                          then retained h f else None) with
                   | Some v => Some v
                   | None => PyDict.get f acc
                   end).
Proof.
  induction video_files as [|f0 rest IH]; intros i acc s r s' H.
  - injection H as <- <-. split.
    + exists [], []. split; [apply grows_refl|]. split; [reflexivity | intros p []].
    + now intros res [= <-] f.
  - cbn [analyze_candidates] in H.
    apply bind_inv in H as [(acc1 & s1 & Hc & H) | (e & Hc & ->)].
    2:{ apply analyze_candidate_run in Hc as ((new & added & G & Hr & Hin) & _).
        split; [|discriminate].
        exists new, added. repeat split; try apply G; auto.
        intros p Hp. apply Hin in Hp as [<-|[]]. now exists i. }
    apply analyze_candidate_run in Hc as ((new & added & G & Hr & Hin) & Hres & _).
    specialize (Hres _ eq_refl).
    destruct total as [|total'].
    + unfold bind, draw_progress_bar, raise in H. injection H as <- <-.
      split; [|discriminate].
      exists new, added. repeat split; try apply G; auto.
      intros p Hp. apply Hin in Hp as [<-|[]]. now exists i.
    + unfold bind at 1, draw_progress_bar, effect in H.
      apply IH in H as ((new' & added' & G' & Hr' & Hin') & Hres').
      split.
      * exists (new ++ Progress EmptyString (i + 1) (S total') :: new')%list,
               (added' ++ added)%list.
        split.
        { apply (grows_trans _ _ _ _ _ _ _ G).
          apply (grows_trans [_] [] _ _ _ _ _ (grows_emit _ s1)) in G'.
          now rewrite app_nil_r in G'. }
        split; [rewrite runs_app, Hr; simpl; exact Hr'|].
        intros p Hp. apply in_app_or in Hp as [Hp|Hp]; [now apply Hin'|].
        apply Hin in Hp as [<-|[]]. now exists i.
      * intros res Hok f. rewrite (Hres' res Hok f). subst acc1.
        destruct (in_dec string_dec f rest) as [Hin1|Hnin1];
          destruct (in_dec string_dec f (f0 :: rest)) as [Hin2|Hnin2];
          try (exfalso; apply Hnin2; now right).
        -- destruct (string_dec f f0) as [->|Hne].
           ++ destruct (retained h f0) eqn:E; [reflexivity|reflexivity].
           ++ destruct (retained h f); [reflexivity|].
              destruct (retained h f0); [|reflexivity].
              now apply dict_get_set_other.
        -- destruct Hin2 as [<-|Hin2]; [|contradiction].
           destruct (retained h f0) eqn:E; [apply dict_get_set_same | reflexivity].
        -- destruct (retained h f0); [|reflexivity].
           apply dict_get_set_other. intros ->. apply Hnin2. now left.
Qed.

End Measurement.

Lemma retained_iff (h : host) (f : string) (d : pyfloat) (info : PyDict.t string) :
  retained h f = Some (d, info) <->
  measured_duration h f = Some d /\ PyFloat.ge_int d 80 = true /\
  measured_loudness h f = Some info /\ info <> [].
Proof.
  unfold retained. split.
  - destruct (measured_duration h f) as [d0|]; [|discriminate].
    destruct (PyFloat.truthy d0 && PyFloat.ge_int d0 80) eqn:E; [|discriminate].
    apply andb_true_iff in E as [_ E].
    destruct (measured_loudness h f) as [info0|]; [|discriminate].
    destruct info0 as [|kv info0]; [discriminate|].
    intros [= <- <-]. repeat split; auto. discriminate.
  - intros (-> & Hge & -> & Hne).
    rewrite Hge, (ge_80_is_truthy d Hge). simpl.
    destruct info; [now elim Hne | reflexivity].
Qed.




(** At the boundary durations: 80 seconds leaves only offset 10. *)
Lemma C2_witness :
  (80 <= 80)%Q /\
  exists start_time s',
    pick_start_time Studio.host (Finite 80) initial = (Ok start_time, s') /\
    (inject_Z 10 <= inject_Z start_time)%Q /\
    (inject_Z start_time <= 80 - inject_Z 70)%Q /\
    (inject_Z start_time + inject_Z 60 + inject_Z 10 <= 80)%Q.
Proof.
  split; [discriminate|].
  apply (C2_start_offset_leaves_both_margins Studio.host 80 initial). discriminate.
Defined.

(** ** The workspace block and [main] *)

Section Driver.

Variable h : host.

Lemma sample_run (k : nat) :
  forall (population : list string) (s : state) r s',
    sample h population k s = (r, s') -> grows [] [] s s'.
Proof.
  induction k as [|k IH]; intros population s r s' H.
  - injection H as <- <-. apply grows_refl.
  - cbn [sample] in H. destruct population as [|first rest].
    + injection H as <- <-. apply grows_refl.
    + apply bind_inv in H as [(j & s1 & Hj & H) | (e & Hj & ->)];
        [|discriminate Hj].
      assert (G1 : grows [] [] s s1).
      { unfold randbelow in Hj. injection Hj as _ <-.
        split; simpl; [now rewrite app_nil_r | reflexivity]. }
      apply bind_inv in H as [(l & s2 & Hl & H) | (e & Hl & ->)].
      * injection H as <- <-. apply IH in Hl.
        now apply (grows_quiet_then _ _ _ _ _ G1).
      * apply IH in Hl. now apply (grows_quiet_then _ _ _ _ _ G1).
Qed.

(** Lines 82-103 always end in an exception, and before any engine run:
    the common-clip call looks [input_i] up in an empty dictionary. *)
Lemma workspace_block_run (video_folder common_clip : string)
    (fade_duration : pyfloat) (output_file : string) (video_files : list string)
    (temp_dir : string) (s : state) r s' :
  workspace_block h video_folder common_clip fade_duration output_file video_files
    temp_dir s = (r, s') ->
  exists e new added,
    r = Raise e /\ grows new added s s' /\ runs new = [] /\
    forall p, In p added -> inside temp_dir p = true.
Proof.
  unfold workspace_block. set (logs := PyStr.path_join temp_dir "logs").
  intros H. unfold bind at 1, effect in H.
  assert (G0 : grows [] [logs] s (create logs s)) by apply grows_create.
  assert (Hlogs : forall p, In p [logs] -> inside temp_dir p = true).
  { intros p [<-|[]]. now apply inside_join. }
  apply bind_inv in H as [(files & s1 & Hs & H) | (e & Hs & ->)].
  2:{ apply sample_run in Hs. exists e, [], [logs].
      split; [reflexivity|]. split; [eapply grows_then_quiet; eauto|]. auto. }
  apply sample_run in Hs.
  pose proof (grows_then_quiet _ _ _ _ _ G0 Hs) as G1.
  unfold bind at 1, print, effect in H.
  set (ev1 := Print "Analyzing loudness and checking durations...") in *.
  pose proof (grows_trans _ _ _ _ _ _ _ G1 (grows_emit ev1 s1)) as G2.
  apply bind_inv in H as [(lr & s2 & Ha & H) | (e & Ha & ->)].
  2:{ apply analyze_candidates_run in Ha as ((new & added & Ga & Hr & Hin) & _).
      exists e, (([] ++ [ev1]) ++ new)%list, (added ++ [] ++ [logs])%list.
      split; [reflexivity|]. split; [eapply grows_trans; eauto|].
      split; [rewrite runs_app; simpl; exact Hr|].
      intros p Hp. apply in_app_or in Hp as [Hp|Hp]; [|now apply Hlogs].
      apply Hin in Hp as (k & ->). now apply inside_join_join. }
  apply analyze_candidates_run in Ha as ((new & added & Ga & Hr & Hin) & _).
  pose proof (grows_trans _ _ _ _ _ _ _ G2 Ga) as G3.
  unfold bind at 1, print, effect in H.
  set (ev2 := Print (nl ++ "Finished analyzing loudness and checking durations.")) in *.
  pose proof (grows_trans _ _ _ _ _ _ _ G3 (grows_emit ev2 s2)) as G4.
  destruct (reencode_videos_missing h common_clip 0 (Float fade_duration)
              (PyStr.path_join temp_dir "common_clip.mp4")
              (PyStr.path_join logs "common_clip.log") fade_duration PyDict.empty
              (emit ev2 s2) eq_refl) as (k & _ & _ & Hre).
  rewrite (bind_raise _ _ _ _ _ Hre) in H. injection H as <- <-.
  eexists _, _, _. split; [reflexivity|]. split; [exact G4|].
  split.
  - rewrite !runs_app, Hr. reflexivity.
  - intros p Hp.
    repeat (apply in_app_or in Hp as [Hp|Hp]);
      try (now apply Hlogs); try (now destruct Hp).
    apply Hin in Hp as (i & ->). now apply inside_join_join.
Qed.

Lemma main_past_preflight (video_folder common_clip : string)
    (fade_duration : pyfloat) (output_file : string) :
  preflight h video_folder common_clip = true ->
  main h video_folder common_clip fade_duration output_file
  = with_TemporaryDirectory h
      (workspace_block h video_folder common_clip fade_duration output_file
         (glob h (PyStr.path_join video_folder "*"))).
Proof.
  unfold preflight, main. rewrite !andb_true_iff, !negb_true_iff.
  intros ((((-> & ->) & ->) & ->) & Hg). simpl.
  destruct (glob h (PyStr.path_join video_folder "*")); [discriminate Hg | reflexivity].
Qed.

(** Leaving the [with] block removes what was created inside the
    temporary directory, whatever the body did and however it ended. *)
Lemma with_TemporaryDirectory_cleans {A} (body : string -> M A)
    (allowed : string -> Prop) (s : state) :
  (forall s0 r s1, body (mkdtemp h) s0 = (r, s1) ->
     exists new added, grows new added s0 s1 /\
       forall p, In p added -> inside (mkdtemp h) p = true \/ allowed p) ->
  forall p, In p (created (snd (with_TemporaryDirectory h body s))) ->
    inside (mkdtemp h) p = false /\ (In p (created s) \/ allowed p).
Proof.
  intros Hbody p. unfold with_TemporaryDirectory.
  destruct (body (mkdtemp h) (create (mkdtemp h) s)) as [r s1] eqn:E.
  apply Hbody in E as (new & added & [_ Hc] & Hadded).
  simpl. rewrite Hc. intros Hp. apply filter_In in Hp as [Hp Hout].
  apply negb_true_iff in Hout. split; [exact Hout|].
  apply in_app_or in Hp as [Hp|[<-|Hp]].
  - destruct (Hadded p Hp) as [Hin|Hal]; [congruence | now right].
  - unfold inside in Hout. now rewrite String.eqb_refl in Hout.
  - now left.
Qed.

End Driver.

(** C5.  The code misses the claim.  In every run that passes the
    pre-flight checks the common-clip call is reached at most once and never
    reaches the engine: [main] ends in an exception (the [KeyError] of the
    lookup in the empty dictionary, unless a duration probe already raised)
    and no command at all has been run. *)
Theorem C5_common_clip_call_never_reaches_the_engine (h : host)
    (video_folder common_clip : string) (fade_duration : pyfloat)
    (output_file : string) (s : state) :
  preflight h video_folder common_clip = true ->
  exists e s',
    main h video_folder common_clip fade_duration output_file s = (Raise e, s') /\
    runs (trace s') = runs (trace s).
Proof.
  intros Hpre. rewrite (main_past_preflight h _ _ _ _ Hpre).
  unfold with_TemporaryDirectory.
  destruct (workspace_block h video_folder common_clip fade_duration output_file
              (glob h (PyStr.path_join video_folder "*")) (mkdtemp h)
              (create (mkdtemp h) s)) as [r s1] eqn:E.
  apply workspace_block_run in E as (e & new & added & -> & [Ht _] & Hr & _).
  exists e, (rmtree (mkdtemp h) s1). split; [reflexivity|].
  simpl. rewrite Ht. simpl. rewrite runs_app, Hr. apply app_nil_r.
Qed.

(** On the Studio host, whose three files are all measured without error,
    the exception is the [KeyError] on [input_i]. *)
Lemma C5_witness :
  preflight Studio.host "/videos" "/clips/common.mp4" = true /\
  (exists e s',
     main Studio.host "/videos" "/clips/common.mp4" (Finite 2) "out.mp4" initial
     = (Raise e, s') /\ runs (trace s') = runs (trace initial)) /\
  fst (main Studio.host "/videos" "/clips/common.mp4" (Finite 2) "out.mp4" initial)
  = Raise (KeyError "input_i").
Proof.
  split; [reflexivity|]. split.
  - apply (C5_common_clip_call_never_reaches_the_engine Studio.host "/videos"
             "/clips/common.mp4" (Finite 2) "out.mp4" initial).
    reflexivity.
  - vm_compute. reflexivity.
Defined.

(** C7.  The code misses the claim.  With the empty dictionary of the
    common-clip step the first lookup raises [KeyError], whatever the other
    arguments; and the dictionary the colon-splitting parser builds from
    ffmpeg's JSON report is non-empty, so it passes line 95, but its keys
    carry the quotation marks of the report and the same lookup raises. *)
Theorem C7_statistics_lookup_raises_KeyError :
  (forall (h : host) video_file start_time duration output_path log_file_path
          fade_duration (s : state),
     reencode_videos h video_file start_time duration output_path log_file_path
       fade_duration PyDict.empty s = (Raise (KeyError "input_i"), s)) /\
  PyDict.truthy (parse_loudness Studio.loudnorm_report) = true /\
  PyDict.get (Studio.quote ++ "input_i" ++ Studio.quote)
    (parse_loudness Studio.loudnorm_report)
  = Some (Studio.quote ++ "-27.61" ++ Studio.quote ++ ",") /\
  (forall (h : host) video_file start_time duration output_path log_file_path
          fade_duration (s : state),
     reencode_videos h video_file start_time duration output_path log_file_path
       fade_duration (parse_loudness Studio.loudnorm_report) s
     = (Raise (KeyError "input_i"), s)).
Proof.
  split; [reflexivity|]. split; [reflexivity|]. split; [reflexivity|].
  intros. unfold reencode_videos.
  apply bind_raise. apply getitem_missing. reflexivity.
Qed.

(** C10.  The code misses the claim.  When the probe exits with status 0
    and prints something [float] cannot read, [get_video_duration] does not
    return [None]: the [ValueError] escapes it, since only
    [CalledProcessError] is caught. *)
Theorem C10_unreadable_probe_output_raises (h : host) (video_file stdout : string)
    (s : state) :
  ffprobe h video_file = Exit0 stdout ->
  PyFloat.of_string (PyStr.strip stdout) = None ->
  get_video_duration h video_file s
  = (Raise (ValueError "could not convert string to float"), s).
Proof.
  intros Hp Hf. unfold get_video_duration. now rewrite Hp, Hf.
Qed.

(** File [e] of the Studio host: the probe prints N/A. *)
Lemma C10_witness :
  ffprobe Studio.host Studio.e = Exit0 ("N/A" ++ nl) /\
  PyFloat.of_string (PyStr.strip ("N/A" ++ nl)) = None /\
  get_video_duration Studio.host Studio.e initial
  = (Raise (ValueError "could not convert string to float"), initial) /\
  fst (analyze_candidates Studio.host Studio.logs 2 0 [Studio.e; Studio.b]
         PyDict.empty initial)
  = Raise (ValueError "could not convert string to float").
Proof.
  split; [reflexivity|]. split; [reflexivity|]. split.
  - apply (C10_unreadable_probe_output_raises Studio.host Studio.e ("N/A" ++ nl));
      reflexivity.
  - vm_compute. reflexivity.
Defined.

(** ** The tail of [main], read off its trace *)

Section Tail.

Variables (h : host) (temp_dir : string) (fade_duration : pyfloat)
          (output_file : string).

Let logs := PyStr.path_join temp_dir "logs".
Let common := PyStr.path_join temp_dir "common_clip.mp4".
Let concat_list_path := PyStr.path_join temp_dir "concat_list.txt".
Let concat_log := PyStr.path_join logs "concat.log".
Let concat := Concat concat_list_path output_file.

Lemma encode_added_inside (i : nat) (jobs : list job) (cs : list command) (p : string) :
  attempts temp_dir fade_duration i jobs cs ->
  In p (flat_map (fun ic => left_by h (snd ic) (video_log_path logs (fst ic)))
          (combine (seq i (List.length cs)) cs)) ->
  inside temp_dir p = true.
Proof.
  intros Hatt Hp. apply in_flat_map in Hp as ([k c] & Hkc & Hp).
  apply in_combine_r in Hkc. simpl in Hp.
  apply attempts_are_encodes in Hatt. rewrite Forall_forall in Hatt.
  destruct (Hatt c Hkc) as (k' & Hout & _).
  unfold left_by in Hp. apply in_app_or in Hp as [Hp|[<-|[]]].
  - destruct (snd (ffmpeg h c)); [|now destruct Hp].
    destruct Hp as [<-|[]]. rewrite Hout. apply temp_clip_inside.
  - apply video_log_inside.
Qed.

(** Whatever the tail does and however it ends, what it creates is inside
    the temporary directory, the output file apart. *)
Lemma process_and_assemble_confined (video_files : list string)
    (loudness_results : PyDict.t (pyfloat * PyDict.t string)) (s : state) r s' :
  process_and_assemble h temp_dir logs common fade_duration output_file video_files
    loudness_results s = (r, s') ->
  exists new added, grows new added s s' /\
    forall p, In p added -> inside temp_dir p = true \/ p = output_file.
Proof.
  unfold process_and_assemble. intros H.
  apply bind_inv in H as [([clips failed] & s1 & He & H) | (e & He & ->)].
  2:{ apply encode_clips_run in He as (new & added & cs & G & _ & _ & _ & Hatt & Hincl & _).
      exists new, added. split; [exact G|]. intros p Hp. left.
      apply (encode_added_inside 1 _ cs p Hatt). now apply Hincl. }
  apply encode_clips_run in He as (new & added & cs & G & _ & _ & _ & Hatt & Hincl & _).
  unfold bind at 1, print, effect in H.
  destruct (assemble_run h temp_dir logs common output_file clips
              (emit (Print (summary_line failed)) s1)) as (s2 & Ha & G2).
  rewrite Ha in H. injection H as <- <-.
  pose proof (grows_trans _ _ _ _ _ _ _ G
                (grows_trans _ _ _ _ _ _ _
                   (grows_emit (Print (summary_line failed)) s1) G2)) as G3.
  eexists _, _. split; [exact G3|].
  intros p Hp. unfold left_by in Hp.
  repeat (apply in_app_or in Hp as [Hp|Hp]).
  - destruct (snd (ffmpeg h _)); [|now destruct Hp].
    destruct Hp as [<-|[]]. now right.
  - destruct Hp as [<-|[]]. left. apply inside_join_join; reflexivity.
  - destruct Hp as [<-|[]]. left. apply inside_join. reflexivity.
  - now destruct Hp.
  - left. apply (encode_added_inside 1 _ cs p Hatt). now apply Hincl.
Qed.



End Tail.

Lemma in_printed (t : string) (tr : list event) :
  In (Print t) tr <-> In t (printed tr).
Proof.
  unfold printed. rewrite in_flat_map. split.
  - intros H. exists (Print t). split; [exact H | now left].
  - intros (e & He & Ht). destruct e; simpl in Ht; try now destruct Ht.
    destruct Ht as [<-|[]]. exact He.
Qed.



Section TailClaims.

Variables (h : host) (temp_dir : string) (fade_duration : pyfloat)
          (output_file : string).

Let logs := PyStr.path_join temp_dir "logs".
Let common := PyStr.path_join temp_dir "common_clip.mp4".
Let concat_list_path := PyStr.path_join temp_dir "concat_list.txt".
Let concat := Concat concat_list_path output_file.






End TailClaims.







(** C8.  Past the pre-flight checks, when [main] ends nothing it created
    inside the temporary directory is left, and nothing else is left that
    was not there before; the same holds for the tail of [main] run inside
    the [with] block, whether it ends normally, with failed clips or with an
    exception, where the only other path it may leave is the output file. *)
Theorem C8_nothing_is_left_in_the_temporary_directory (h : host)
    (video_folder common_clip : string) (fade_duration : pyfloat)
    (output_file : string) (s : state) :
  preflight h video_folder common_clip = true ->
  (forall p,
     In p (created (snd (main h video_folder common_clip fade_duration output_file s))) ->
     inside (mkdtemp h) p = false /\ In p (created s)) /\
  (forall video_files loudness_results p,
     In p (created (snd (with_TemporaryDirectory h
                           (fun temp_dir =>
                              process_and_assemble h temp_dir
                                (PyStr.path_join temp_dir "logs")
                                (PyStr.path_join temp_dir "common_clip.mp4")
                                fade_duration output_file video_files loudness_results)
                           s))) ->
     inside (mkdtemp h) p = false /\ (In p (created s) \/ p = output_file)).
Proof.
  intros Hpre. split.
  - intros p Hp. rewrite (main_past_preflight h _ _ _ _ Hpre) in Hp.
    apply (with_TemporaryDirectory_cleans h _ (fun _ => False)) in Hp.
    + destruct Hp as [Hout [Hin|[]]]. now split.
    + intros s0 r s1 Hb.
      apply workspace_block_run in Hb as (e & new & added & _ & G & _ & Hadded).
      exists new, added. split; [exact G|]. intros q Hq. left. now apply Hadded.
  - intros video_files loudness_results p Hp.
    apply (with_TemporaryDirectory_cleans h _ (fun q => q = output_file)) in Hp;
      [exact Hp|].
    intros s0 r s1 Hb.
    now apply process_and_assemble_confined in Hb.
Qed.

(** On the Studio host: [main] leaves nothing, and the tail run inside the
    [with] block on the two jobs leaves the output file only. *)
Lemma C8_witness :
  preflight Studio.host "/videos" "/clips/common.mp4" = true /\
  (forall p,
     In p (created (snd (main Studio.host "/videos" "/clips/common.mp4" (Finite 2)
                           "out.mp4" initial))) ->
     inside (mkdtemp Studio.host) p = false /\ In p (created initial)) /\
  created (snd (with_TemporaryDirectory Studio.host
                  (fun temp_dir =>
                     process_and_assemble Studio.host temp_dir
                       (PyStr.path_join temp_dir "logs")
                       (PyStr.path_join temp_dir "common_clip.mp4")
                       (Finite 2) "out.mp4" [Studio.a; Studio.b; Studio.c] Studio.jobs)
                  initial))
  = ["out.mp4"].
Proof.
  split; [reflexivity|]. split.
  - apply (C8_nothing_is_left_in_the_temporary_directory Studio.host "/videos"
             "/clips/common.mp4" (Finite 2) "out.mp4" initial). reflexivity.
  - vm_compute. reflexivity.
Defined.

From Stdlib Require DecimalNat.

(** * Further properties of the script *)

(** ** The progress bar (lines 11-12) *)




(** ** The script as a program (lines 67-79 and 131-141) *)

Section Program.

Variable h : host.

Lemma main_at_failed_preflight (video_folder common_clip : string)
    (fade_duration : pyfloat) (output_file : string) (s : state) :
  preflight h video_folder common_clip = false ->
  exists msg, In msg preflight_messages /\
    main h video_folder common_clip fade_duration output_file s
    = (Ok tt, emit (Print msg) s).
Proof.
  unfold preflight, main, preflight_messages.
  destruct (which h "ffmpeg"), (which h "ffprobe"), (isdir h video_folder),
    (path_exists h common_clip), (glob h (PyStr.path_join video_folder "*"));
    simpl; intros H; try discriminate H;
    eexists; (split; [|reflexivity]); simpl; auto.
Qed.

Lemma main_past_preflight_raises (video_folder common_clip : string)
    (fade_duration : pyfloat) (output_file : string) (s : state) :
  preflight h video_folder common_clip = true ->
  exists e s',
    main h video_folder common_clip fade_duration output_file s = (Raise e, s') /\
    runs (trace s') = runs (trace s) /\
    incl (created s') (created s).
Proof.
  intros Hpre.
  assert (Hclean : incl (created (snd (main h video_folder common_clip fade_duration
                                         output_file s))) (created s)).
  { intros p Hp. rewrite (main_past_preflight h _ _ _ _ Hpre) in Hp.
    apply (with_TemporaryDirectory_cleans h _ (fun _ => False)) in Hp.
    - now destruct Hp as [_ [Hin|[]]].
    - intros s0 r s1 Hb.
      apply workspace_block_run in Hb as (e & new & added & _ & G & _ & Hadded).
      exists new, added. split; [exact G|]. intros q Hq. left. now apply Hadded. }
  revert Hclean. rewrite (main_past_preflight h _ _ _ _ Hpre).
  unfold with_TemporaryDirectory.
  destruct (workspace_block h video_folder common_clip fade_duration output_file
              (glob h (PyStr.path_join video_folder "*")) (mkdtemp h)
              (create (mkdtemp h) s)) as [r s1] eqn:E.
  apply workspace_block_run in E as (e & new & added & -> & [Ht _] & Hr & _).
  intros Hclean. exists e, (rmtree (mkdtemp h) s1).
  split; [reflexivity|]. simpl in *. rewrite Ht. simpl.
  split; [rewrite runs_app, Hr; apply app_nil_r | exact Hclean].
Qed.


(** X3.  Whatever its arguments and whatever the host answers, the script
    never runs an encode or concatenation command and leaves no file
    behind; when it ends with status 0 it has printed exactly one line, one
    of the three pre-flight messages. *)
Theorem script_never_runs_the_engine (argv : list string) (s : state) :
  let s' := snd (script h argv s) in
  runs (trace s') = runs (trace s) /\
  incl (created s') (created s) /\
  (exit_status (fst (script h argv s)) = 0 ->
   exists msg, In msg preflight_messages /\ s' = emit (Print msg) s).
Proof.
  cbv zeta.
  assert (Husage : forall argv', script h argv' s = (Exited 1, emit (Print usage_line) s) ->
            runs (trace (snd (script h argv' s))) = runs (trace s) /\
            incl (created (snd (script h argv' s))) (created s) /\
            (exit_status (fst (script h argv' s)) = 0 ->
             exists msg, In msg preflight_messages /\
                         snd (script h argv' s) = emit (Print msg) s)).
  { intros argv' ->. simpl. rewrite runs_app. simpl.
    split; [apply app_nil_r|]. split; [apply incl_refl | discriminate]. }
  destruct argv as [|name [|vf [|cc [|fade [|out [|extra rest]]]]]];
    try (match goal with
         | |- context [script h ?a s] => apply (Husage a eq_refl)
         end).
  unfold script.
  destruct (PyFloat.of_string fade) as [x|] eqn:Hf.
  2:{ simpl. split; [reflexivity|]. split; [apply incl_refl | discriminate]. }
  destruct (preflight h vf cc) eqn:Hpre.
  - destruct (main_past_preflight_raises vf cc x out s Hpre)
      as (e & s' & -> & Hr & Hc).
    simpl. split; [exact Hr|]. split; [exact Hc | discriminate].
  - destruct (main_at_failed_preflight vf cc x out s Hpre) as (msg & Hm & ->).
    simpl. rewrite runs_app. simpl.
    split; [apply app_nil_r|]. split; [apply incl_refl|].
    intros _. now exists msg.
Qed.

End Program.

(** ** The parser of [analyze_loudness] (lines 38-43) *)

Lemma chars_append (a b : string) :
  list_ascii_of_string (a ++ b)
  = (list_ascii_of_string a ++ list_ascii_of_string b)%list.
Proof. induction a as [|c a IH]; simpl; [reflexivity | now rewrite IH]. Qed.

Lemma string_of_chars_append (a b : list ascii) :
  string_of_list_ascii (a ++ b) = string_of_list_ascii a ++ string_of_list_ascii b.
Proof. induction a as [|c a IH]; simpl; [reflexivity | now rewrite IH]. Qed.

Lemma lstrip_at_nonspace (a b : list ascii) (c : ascii) :
  PyStr.isspace c = false ->
  PyStr.lstrip (a ++ c :: b) = (PyStr.lstrip a ++ c :: b)%list.
Proof.
  intros Hc. induction a as [|x a IH]; simpl.
  - now rewrite Hc.
  - destruct (PyStr.isspace x); [exact IH | reflexivity].
Qed.

Lemma lstrip_idempotent (l : list ascii) :
  PyStr.lstrip (PyStr.lstrip l) = PyStr.lstrip l.
Proof.
  induction l as [|x l IH]; simpl; [reflexivity|].
  destruct (PyStr.isspace x) eqn:E; [exact IH | simpl; now rewrite E].
Qed.

Lemma lstrip_snoc (l : list ascii) (c : ascii) :
  PyStr.lstrip (l ++ [c])
  = match PyStr.lstrip l with
    | [] => PyStr.lstrip [c]
    | _ :: _ => (PyStr.lstrip l ++ [c])%list
    end.
Proof.
  induction l as [|x l IH]; simpl; [reflexivity|].
  destruct (PyStr.isspace x); [exact IH | reflexivity].
Qed.

Lemma rstrip_cons (c : ascii) (l : list ascii) :
  PyStr.rstrip (c :: l)
  = match PyStr.rstrip l with
    | [] => PyStr.lstrip [c]
    | _ :: _ => c :: PyStr.rstrip l
    end.
Proof.
  unfold PyStr.rstrip. change (rev (c :: l)) with (rev l ++ [c])%list.
  rewrite lstrip_snoc.
  destruct (PyStr.lstrip (rev l)) as [|y m] eqn:E.
  - simpl. now destruct (PyStr.isspace c).
  - rewrite rev_app_distr. change (rev [c]) with [c].
    remember (rev (y :: m)) as r eqn:Hr.
    destruct r as [|z r]; [|reflexivity].
    apply (f_equal (@List.length ascii)) in Hr. rewrite length_rev in Hr.
    discriminate Hr.
Qed.

Lemma rstrip_at_nonspace (a b : list ascii) (c : ascii) :
  PyStr.isspace c = false ->
  PyStr.rstrip (a ++ c :: b) = (a ++ c :: PyStr.rstrip b)%list.
Proof.
  intros Hc. unfold PyStr.rstrip.
  rewrite rev_app_distr. simpl rev at 2. rewrite <- app_assoc. simpl app.
  rewrite lstrip_at_nonspace by exact Hc.
  rewrite rev_app_distr. simpl rev. rewrite rev_involutive, <- app_assoc. reflexivity.
Qed.

Lemma strips_commute (l : list ascii) :
  PyStr.lstrip (PyStr.rstrip l) = PyStr.rstrip (PyStr.lstrip l).
Proof.
  induction l as [|c l IH]; [reflexivity|].
  rewrite rstrip_cons. simpl PyStr.lstrip at 3.
  destruct (PyStr.isspace c) eqn:Hc.
  - destruct (PyStr.rstrip l) as [|y m] eqn:E.
    + simpl. rewrite Hc. rewrite <- IH. reflexivity.
    + simpl PyStr.lstrip at 1. rewrite Hc. exact IH.
  - rewrite rstrip_cons.
    destruct (PyStr.rstrip l); simpl; rewrite ?Hc; simpl; rewrite ?Hc; reflexivity.
Qed.

Lemma rstrip_idempotent (l : list ascii) :
  PyStr.rstrip (PyStr.rstrip l) = PyStr.rstrip l.
Proof.
  unfold PyStr.rstrip. now rewrite rev_involutive, lstrip_idempotent.
Qed.

Lemma strip_chars_idempotent (l : list ascii) :
  PyStr.strip_chars (PyStr.strip_chars l) = PyStr.strip_chars l.
Proof.
  unfold PyStr.strip_chars.
  now rewrite strips_commute, lstrip_idempotent, rstrip_idempotent.
Qed.

(** Stripping never brings in a character. *)
Lemma lstrip_keeps_absence (p : ascii -> bool) (l : list ascii) :
  existsb p l = false -> existsb p (PyStr.lstrip l) = false.
Proof.
  induction l as [|x l IH]; simpl; [reflexivity|].
  intros H. apply orb_false_iff in H as [Hx Hl].
  destruct (PyStr.isspace x); [now apply IH | simpl; now rewrite Hx, Hl].
Qed.

Lemma existsb_rev (p : ascii -> bool) (l : list ascii) :
  existsb p (rev l) = existsb p l.
Proof.
  induction l as [|x l IH]; simpl; [reflexivity|].
  rewrite existsb_app, IH. simpl. rewrite orb_false_r. apply orb_comm.
Qed.

Lemma strip_keeps_absence (p : ascii -> bool) (l : list ascii) :
  existsb p l = false -> existsb p (PyStr.strip_chars l) = false.
Proof.
  intros H. unfold PyStr.strip_chars, PyStr.rstrip.
  rewrite existsb_rev. apply lstrip_keeps_absence.
  rewrite existsb_rev. now apply lstrip_keeps_absence.
Qed.

(** What stripping does to a text with a colon in it. *)
Lemma strip_chars_around_colon (k v : list ascii) :
  PyStr.strip_chars (k ++ ":"%char :: v)
  = (PyStr.lstrip k ++ ":"%char :: PyStr.rstrip v)%list.
Proof.
  unfold PyStr.strip_chars.
  rewrite lstrip_at_nonspace by reflexivity.
  now rewrite rstrip_at_nonspace by reflexivity.
Qed.

Lemma split_first_at_separator (sep : ascii) (k v : list ascii) :
  existsb (Ascii.eqb sep) k = false ->
  PyStr.split_first sep (string_of_list_ascii (k ++ sep :: v))
  = (string_of_list_ascii k, string_of_list_ascii v).
Proof.
  induction k as [|x k IH]; simpl; intros H.
  - now rewrite Ascii.eqb_refl.
  - apply orb_false_iff in H as [Hx Hk].
    rewrite Ascii.eqb_sym, Hx, (IH Hk). reflexivity.
Qed.

Lemma split_first_has_no_separator (sep : ascii) (s : string) :
  PyStr.contains sep (fst (PyStr.split_first sep s)) = false.
Proof.
  unfold PyStr.contains. induction s as [|x s IH]; simpl; [reflexivity|].
  destruct (Ascii.eqb x sep) eqn:E; [reflexivity|].
  destruct (PyStr.split_first sep s) as [a b]. simpl in *.
  now rewrite Ascii.eqb_sym, E, IH.
Qed.

(** A line [key:value], the key free of colons, sets the stripped key to
    the stripped value; everything after the first colon is the value. *)
Lemma parse_line_key_value (acc : PyDict.t string) (k v : string) :
  PyStr.contains ":" k = false ->
  parse_line acc (k ++ ":" ++ v) = PyDict.set (PyStr.strip k) (PyStr.strip v) acc.
Proof.
  intros Hk. unfold parse_line.
  assert (Hc : PyStr.contains ":" (k ++ ":" ++ v) = true).
  { unfold PyStr.contains. rewrite chars_append, existsb_app. simpl.
    apply orb_true_r. }
  rewrite Hc. unfold PyStr.strip at 1.
  rewrite chars_append. simpl list_ascii_of_string at 2.
  rewrite strip_chars_around_colon.
  rewrite split_first_at_separator
    by (apply lstrip_keeps_absence; exact Hk).
  unfold PyStr.strip. rewrite !list_ascii_of_string_of_list_ascii.
  f_equal.
  - f_equal. unfold PyStr.strip_chars. now rewrite lstrip_idempotent.
  - f_equal. unfold PyStr.strip_chars.
    now rewrite strips_commute, rstrip_idempotent.
Qed.

Lemma parse_line_without_colon (acc : PyDict.t string) (line : string) :
  PyStr.contains ":" line = false -> parse_line acc line = acc.
Proof. intros H. unfold parse_line. now rewrite H. Qed.

Lemma split_chars_at_separator (sep : ascii) (a b : list ascii) :
  forall cur,
    PyStr.split_chars sep cur (a ++ sep :: b)
    = (PyStr.split_chars sep cur a ++ PyStr.split_chars sep [] b)%list.
Proof.
  induction a as [|c a IH]; intros cur; simpl.
  - now rewrite Ascii.eqb_refl.
  - destruct (Ascii.eqb c sep); simpl; now rewrite IH.
Qed.

Lemma split_chars_without_separator (sep : ascii) (a : list ascii) :
  forall cur,
    existsb (Ascii.eqb sep) a = false ->
    PyStr.split_chars sep cur a = [(rev cur ++ a)%list].
Proof.
  induction a as [|c a IH]; intros cur H; simpl.
  - now rewrite app_nil_r.
  - simpl in H. apply orb_false_iff in H as [Hc Ha].
    rewrite Ascii.eqb_sym, Hc, (IH _ Ha). simpl. now rewrite <- app_assoc.
Qed.

(** The pieces of a split hold a character exactly when the text does,
    the separator apart. *)
Lemma split_chars_exists (sep : ascii) (p : ascii -> bool) (l : list ascii) :
  p sep = false ->
  forall cur,
    existsb (existsb p) (PyStr.split_chars sep cur l) = existsb p cur || existsb p l.
Proof.
  intros Hp. induction l as [|c l IH]; intros cur; simpl.
  - now rewrite existsb_rev, !orb_false_r.
  - destruct (Ascii.eqb c sep) eqn:E.
    + apply Ascii.eqb_eq in E as ->. simpl. rewrite existsb_rev, IH, Hp. reflexivity.
    + rewrite IH. simpl. rewrite orb_assoc, (orb_comm (p c)). reflexivity.
Qed.

Lemma split_chars_pieces_lack_separator (sep : ascii) (l : list ascii) :
  forall cur,
    existsb (Ascii.eqb sep) cur = false ->
    Forall (fun piece => existsb (Ascii.eqb sep) piece = false)
      (PyStr.split_chars sep cur l).
Proof.
  induction l as [|c l IH]; intros cur Hcur; simpl.
  - constructor; [now rewrite existsb_rev | constructor].
  - destruct (Ascii.eqb c sep) eqn:E.
    + constructor; [now rewrite existsb_rev | now apply IH].
    + apply IH. simpl. now rewrite Ascii.eqb_sym, E, Hcur.
Qed.

Lemma split_at_separator (sep : ascii) (a b : string) :
  PyStr.split sep (a ++ String sep b) = (PyStr.split sep a ++ PyStr.split sep b)%list.
Proof.
  unfold PyStr.split. rewrite chars_append. simpl list_ascii_of_string.
  now rewrite split_chars_at_separator, map_app.
Qed.

Lemma split_one_line (sep : ascii) (a : string) :
  PyStr.contains sep a = false -> PyStr.split sep a = [a].
Proof.
  unfold PyStr.contains, PyStr.split. intros H.
  rewrite split_chars_without_separator by exact H. simpl.
  now rewrite string_of_list_ascii_of_string.
Qed.

Lemma one_line_contains (s : string) :
  one_line s = true -> PyStr.contains newline s = false.
Proof. unfold one_line. now rewrite negb_true_iff. Qed.

(** One more line of report is one more step of the parser. *)
Lemma parse_loudness_next_line (text line : string) :
  one_line line = true ->
  parse_loudness (text ++ nl ++ line) = parse_line (parse_loudness text) line.
Proof.
  intros H. apply one_line_contains in H. unfold parse_loudness.
  change (nl ++ line) with (String newline line).
  change (ascii_of_nat 10) with newline.
  rewrite split_at_separator, fold_left_app, (split_one_line _ _ H). reflexivity.
Qed.

Lemma one_line_append (a b : string) :
  one_line (a ++ b) = one_line a && one_line b.
Proof.
  unfold one_line, PyStr.contains. rewrite chars_append, existsb_app.
  apply negb_orb.
Qed.

(** X4.  A further line [key:value] of the report, the key free of colons,
    binds the stripped key to the stripped value, replacing what an
    earlier line had bound to that key; everything after the first colon
    belongs to the value. *)
Theorem parse_loudness_binds_the_last_line (text key value : string) :
  PyStr.contains ":" key = false ->
  one_line key = true -> one_line value = true ->
  parse_loudness (text ++ nl ++ key ++ ":" ++ value)
  = PyDict.set (PyStr.strip key) (PyStr.strip value) (parse_loudness text) /\
  PyDict.get (PyStr.strip key) (parse_loudness (text ++ nl ++ key ++ ":" ++ value))
  = Some (PyStr.strip value).
Proof.
  intros Hk H1 H2.
  assert (E : parse_loudness (text ++ nl ++ key ++ ":" ++ value)
              = PyDict.set (PyStr.strip key) (PyStr.strip value) (parse_loudness text)).
  { rewrite parse_loudness_next_line.
    - now apply parse_line_key_value.
    - rewrite !one_line_append, H1, H2. reflexivity. }
  split; [exact E|]. rewrite E. apply dict_get_set_same.
Qed.

Lemma parse_loudness_binds_the_last_line_witness :
  PyDict.get "input_i"
    (parse_loudness ("input_i : -30.0" ++ nl ++ " input_i : -27.6 : x "))
  = Some "-27.6 : x".
Proof.
  destruct (parse_loudness_binds_the_last_line "input_i : -30.0" " input_i " " -27.6 : x "
              eq_refl eq_refl eq_refl) as [_ H].
  exact H.
Defined.

Lemma dict_set_is_not_empty {V} (k : string) (v : V) (d : PyDict.t V) :
  PyDict.set k v d <> [].
Proof. destruct d as [|[k' v'] d]; simpl; [|destruct (k =? k')%string]; discriminate. Qed.

Lemma parse_line_keeps_entries (acc : PyDict.t string) (line : string) :
  acc <> [] -> parse_line acc line <> [].
Proof.
  intros H. unfold parse_line. destruct (PyStr.contains ":" line); [|exact H].
  destruct (PyStr.split_first ":" (PyStr.strip line)). apply dict_set_is_not_empty.
Qed.

Lemma parse_lines_empty (lines : list string) :
  forall acc,
    fold_left parse_line lines acc = [] <->
    acc = [] /\ existsb (PyStr.contains ":") lines = false.
Proof.
  induction lines as [|line lines IH]; intros acc; simpl.
  - tauto.
  - rewrite IH, orb_false_iff. split.
    + intros [Hacc Hrest]. unfold parse_line in Hacc.
      destruct (PyStr.contains ":" line) eqn:E.
      * destruct (PyStr.split_first ":" (PyStr.strip line)).
        now apply dict_set_is_not_empty in Hacc.
      * auto.
    + intros (-> & Hline & Hrest). now rewrite parse_line_without_colon.
Qed.

Lemma split_lines_contain (p : ascii) (text : string) :
  Ascii.eqb p newline = false ->
  existsb (PyStr.contains p) (PyStr.split newline text) = PyStr.contains p text.
Proof.
  intros Hp. unfold PyStr.split, PyStr.contains.
  pose proof (split_chars_exists newline (Ascii.eqb p) (list_ascii_of_string text) Hp [])
    as H.
  simpl in H. rewrite <- H. clear H.
  generalize (PyStr.split_chars newline [] (list_ascii_of_string text)).
  intros pieces. induction pieces as [|x pieces IH]; simpl; [reflexivity|].
  now rewrite list_ascii_of_string_of_list_ascii, IH.
Qed.

(** X5.  The parser returns the empty dictionary exactly when the report
    has no colon at all; any line with a colon, whatever else it holds,
    leaves at least one entry. *)
Theorem parse_loudness_is_empty_iff_no_colon (text : string) :
  parse_loudness text = [] <-> PyStr.contains ":" text = false.
Proof.
  unfold parse_loudness. change (ascii_of_nat 10) with newline.
  rewrite parse_lines_empty, split_lines_contain by reflexivity.
  unfold PyDict.empty. tauto.
Qed.

(** Tidy text: what the parser lets through as a key or as a value. *)
Lemma strip_is_stripped (s : string) : stripped (PyStr.strip s) = true.
Proof.
  unfold stripped, PyStr.strip. rewrite list_ascii_of_string_of_list_ascii.
  rewrite strip_chars_idempotent. apply String.eqb_refl.
Qed.

Lemma strip_lacks (c : ascii) (s : string) :
  PyStr.contains c s = false -> PyStr.contains c (PyStr.strip s) = false.
Proof.
  unfold PyStr.contains, PyStr.strip. rewrite list_ascii_of_string_of_list_ascii.
  apply strip_keeps_absence.
Qed.

Lemma split_first_lacks (c sep : ascii) (s : string) :
  PyStr.contains c s = false ->
  PyStr.contains c (fst (PyStr.split_first sep s)) = false /\
  PyStr.contains c (snd (PyStr.split_first sep s)) = false.
Proof.
  unfold PyStr.contains. induction s as [|x s IH]; simpl; [auto|].
  intros H. apply orb_false_iff in H as [Hx Hs].
  destruct (Ascii.eqb x sep); simpl; [auto|].
  destruct (PyStr.split_first sep s) as [a b]. simpl in *.
  rewrite Hx. now apply IH.
Qed.

Lemma split_lines_are_one_line (text : string) :
  Forall (fun line => one_line line = true) (PyStr.split newline text).
Proof.
  unfold PyStr.split, one_line, PyStr.contains.
  pose proof (split_chars_pieces_lack_separator newline (list_ascii_of_string text)
                [] eq_refl) as H.
  induction H as [|piece pieces Hp _ IH]; simpl; constructor; [|exact IH].
  now rewrite list_ascii_of_string_of_list_ascii, Hp.
Qed.

Lemma dict_set_keys {V} (k : string) (v : V) (d : PyDict.t V) :
  map fst (PyDict.set k v d)
  = if has_key d k then map fst d else (map fst d ++ [k])%list.
Proof.
  unfold has_key. induction d as [|[k' v'] d IH]; simpl; [reflexivity|].
  destruct (k =? k')%string eqn:E; simpl; [reflexivity|].
  rewrite IH. now destruct (PyDict.get k d).
Qed.

Lemma dict_get_none_not_key {V} (k : string) (d : PyDict.t V) :
  PyDict.get k d = None -> ~ In k (map fst d).
Proof.
  induction d as [|[k' v'] d IH]; simpl; [tauto|].
  destruct (k =? k')%string eqn:E; [discriminate|].
  apply String.eqb_neq in E. intros H [Hk|Hk]; [congruence | now apply IH].
Qed.

Lemma dict_set_no_duplicate_keys {V} (k : string) (v : V) (d : PyDict.t V) :
  NoDup (map fst d) -> NoDup (map fst (PyDict.set k v d)).
Proof.
  intros H. rewrite dict_set_keys. unfold has_key.
  destruct (PyDict.get k d) eqn:E; [exact H|].
  apply dict_get_none_not_key in E.
  apply NoDup_app; [exact H | repeat constructor; intros [] | ].
  intros x Hx [<-|[]]. contradiction.
Qed.

Lemma parse_line_is_tidy (acc : PyDict.t string) (line : string) :
  one_line line = true ->
  NoDup (map fst acc) /\ Forall tidy acc ->
  NoDup (map fst (parse_line acc line)) /\ Forall tidy (parse_line acc line).
Proof.
  intros Hline [Hnd Hall]. unfold parse_line.
  destruct (PyStr.contains ":" line); [|now split].
  pose proof (split_first_has_no_separator ":" (PyStr.strip line)) as Hcolon.
  destruct (split_first_lacks newline ":" (PyStr.strip line)
              (strip_lacks _ _ (one_line_contains _ Hline))) as [Hk Hv].
  destruct (PyStr.split_first ":" (PyStr.strip line)) as [key value].
  simpl in Hcolon, Hk, Hv.
  split; [now apply dict_set_no_duplicate_keys|].
  assert (Ht : forall key' value', PyStr.contains ":" key' = false ->
                 PyStr.contains newline key' = false ->
                 PyStr.contains newline value' = false ->
                 tidy (PyStr.strip key', PyStr.strip value')).
  { intros key' value' H1 H2 H3. unfold tidy, one_line. simpl.
    rewrite !strip_is_stripped, !strip_lacks by assumption. auto. }
  clear Hnd. induction Hall as [|[k' v'] d Hx Hd IH]; simpl.
  - constructor; [now apply Ht | constructor].
  - destruct (PyStr.strip key =? k')%string eqn:E.
    + apply String.eqb_eq in E as <-.
      constructor; [now apply Ht | exact Hd].
    + constructor; [exact Hx | exact IH].
Qed.

(** X6.  Whatever the report, the parsed dictionary has no key twice;
    its keys are free of colons, of line breaks and of outer white space,
    and its values are free of line breaks and of outer white space. *)
Theorem parse_loudness_entries_are_tidy (text : string) :
  NoDup (map fst (parse_loudness text)) /\
  Forall (fun kv =>
            PyStr.contains ":" (fst kv) = false /\ one_line (fst kv) = true /\
            stripped (fst kv) = true /\
            one_line (snd kv) = true /\ stripped (snd kv) = true)
    (parse_loudness text).
Proof.
  unfold parse_loudness. change (ascii_of_nat 10) with newline.
  pose proof (split_lines_are_one_line text) as Hlines.
  assert (H : forall acc,
             NoDup (map fst acc) /\ Forall tidy acc ->
             NoDup (map fst (fold_left parse_line (PyStr.split newline text) acc)) /\
             Forall tidy (fold_left parse_line (PyStr.split newline text) acc)).
  { induction Hlines as [|line lines Hl _ IH]; intros acc Hacc; simpl; [exact Hacc|].
    apply IH. now apply parse_line_is_tidy. }
  apply H. split; constructor.
Qed.

Lemma dict_set_new {V} (k : string) (v : V) (d : PyDict.t V) :
  PyDict.get k d = None -> PyDict.set k v d = (d ++ [(k, v)])%list.
Proof.
  induction d as [|[k' v'] d IH]; simpl; [reflexivity|].
  destruct (k =? k')%string; [discriminate|]. intros H. now rewrite IH.
Qed.

Lemma dict_get_after {V} (k k0 : string) (v : V) (d : PyDict.t V) :
  k <> k0 -> PyDict.get k d = None -> PyDict.get k (d ++ [(k0, v)])%list = None.
Proof.
  intros Hne. induction d as [|[k' v'] d IH]; simpl.
  - now rewrite (proj2 (String.eqb_neq k k0) Hne).
  - destruct (k =? k')%string; [discriminate | exact IH].
Qed.

Lemma split_joined_lines (lines : list string) :
  lines <> [] -> Forall (fun line => one_line line = true) lines ->
  PyStr.split newline (String.concat nl lines) = lines.
Proof.
  intros Hne Hall. induction Hall as [|line rest Hl Hrest IH]; [now elim Hne|].
  destruct rest as [|line2 rest].
  - simpl. apply split_one_line. now apply one_line_contains.
  - change (String.concat nl (line :: line2 :: rest))
      with (line ++ String newline (String.concat nl (line2 :: rest))).
    rewrite split_at_separator, (split_one_line _ _ (one_line_contains _ Hl)).
    simpl. f_equal. apply IH. discriminate.
Qed.

Lemma clean_entry_line (kv : string * string) :
  clean_entry kv = true ->
  one_line (fst kv ++ ":" ++ snd kv) = true /\
  forall acc, parse_line acc (fst kv ++ ":" ++ snd kv)
              = PyDict.set (fst kv) (snd kv) acc.
Proof.
  unfold clean_entry, stripped. rewrite !andb_true_iff, negb_true_iff, !String.eqb_eq.
  intros ((((Hc & Hk1) & Hk2) & Hv1) & Hv2). split.
  - rewrite !one_line_append, Hk1, Hv1. reflexivity.
  - intros acc. rewrite parse_line_key_value by exact Hc. now rewrite Hk2, Hv2.
Qed.

Lemma parse_lines_of_clean_entries (d : PyDict.t string) :
  NoDup (map fst d) -> forallb clean_entry d = true ->
  forall acc,
    (forall k, In k (map fst d) -> PyDict.get k acc = None) ->
    fold_left parse_line (map (fun kv => fst kv ++ ":" ++ snd kv) d) acc
    = (acc ++ d)%list.
Proof.
  induction d as [|[k v] d IH]; intros Hnd Hclean acc Hfresh; simpl.
  - now rewrite app_nil_r.
  - simpl in Hclean. apply andb_true_iff in Hclean as [Hkv Hclean].
    inversion Hnd as [|? ? Hk Hnd']; subst.
    destruct (clean_entry_line (k, v) Hkv) as [_ Hline]. simpl in Hline.
    rewrite Hline, dict_set_new by (apply Hfresh; now left).
    rewrite IH; [now rewrite <- app_assoc | exact Hnd' | exact Hclean |].
    intros k' Hk'. apply dict_get_after.
    + intros ->. contradiction.
    + apply Hfresh. now right.
Qed.

(** X7.  Writing a dictionary out one [key:value] per line and parsing the
    text gives the dictionary back, entries in the same order, provided no
    key occurs twice and keys and values are text the parser leaves alone
    (one line, no outer white space, no colon in a key). *)
Theorem parse_loudness_reads_a_report_back (d : PyDict.t string) :
  NoDup (map fst d) -> forallb clean_entry d = true ->
  parse_loudness (report_of d) = d.
Proof.
  intros Hnd Hclean. destruct d as [|kv d]; [reflexivity|].
  unfold parse_loudness, report_of. change (ascii_of_nat 10) with newline.
  rewrite split_joined_lines.
  - now rewrite parse_lines_of_clean_entries.
  - discriminate.
  - apply Forall_forall. intros line Hline.
    apply in_map_iff in Hline as (kv' & <- & Hin).
    apply (proj1 (forallb_forall _ _) Hclean) in Hin.
    now apply clean_entry_line.
Qed.

Lemma parse_loudness_reads_a_report_back_witness :
  NoDup (map fst Studio.stats) /\ forallb clean_entry Studio.stats = true /\
  parse_loudness (report_of Studio.stats) = Studio.stats.
Proof.
  assert (Hnd : NoDup (map fst Studio.stats)).
  { simpl. repeat constructor; simpl; intuition discriminate. }
  split; [exact Hnd|]. split; [reflexivity|].
  apply (parse_loudness_reads_a_report_back Studio.stats Hnd). reflexivity.
Defined.

(** ** [reencode_videos] (lines 50-65) *)

(** X8.  When a statistic is missing, [reencode_videos] raises [KeyError]
    for the first missing key in the order [input_i], [input_lra],
    [input_tp], [input_thresh], [target_offset], and nothing has been run,
    written or printed: the state is the one it was called in. *)
Theorem reencode_videos_names_the_first_missing_key (h : host)
    (video_file : string) (start_time : Z) (duration : number)
    (output_path log_file_path : string) (fade_duration : pyfloat)
    (d : PyDict.t string) (s : state) (present : list string) (missing : string)
    (later : list string) :
  required_keys = (present ++ missing :: later)%list ->
  forallb (has_key d) present = true ->
  has_key d missing = false ->
  reencode_videos h video_file start_time duration output_path log_file_path
    fade_duration d s = (Raise (KeyError missing), s).
Proof.
  unfold required_keys. intros Heq Hp Hm. unfold reencode_videos.
  destruct present as [|k1 [|k2 [|k3 [|k4 [|k5 present]]]]];
    simpl in Heq; injection Heq; intros; subst;
    simpl in Hp; rewrite ?andb_true_iff in Hp;
    try (destruct present; discriminate).
  - apply bind_raise. now apply getitem_missing.
  - destruct Hp as [K1 _].
    rewrite (bind_ok _ _ _ _ _ (getitem_present d _ s K1)).
    apply bind_raise. now apply getitem_missing.
  - destruct Hp as (K1 & K2 & _).
    rewrite (bind_ok _ _ _ _ _ (getitem_present d _ s K1)).
    rewrite (bind_ok _ _ _ _ _ (getitem_present d _ s K2)).
    apply bind_raise. now apply getitem_missing.
  - destruct Hp as (K1 & K2 & K3 & _).
    rewrite (bind_ok _ _ _ _ _ (getitem_present d _ s K1)).
    rewrite (bind_ok _ _ _ _ _ (getitem_present d _ s K2)).
    rewrite (bind_ok _ _ _ _ _ (getitem_present d _ s K3)).
    apply bind_raise. now apply getitem_missing.
  - destruct Hp as (K1 & K2 & K3 & K4 & _).
    rewrite (bind_ok _ _ _ _ _ (getitem_present d _ s K1)).
    rewrite (bind_ok _ _ _ _ _ (getitem_present d _ s K2)).
    rewrite (bind_ok _ _ _ _ _ (getitem_present d _ s K3)).
    rewrite (bind_ok _ _ _ _ _ (getitem_present d _ s K4)).
    apply bind_raise. now apply getitem_missing.
Qed.

Lemma reencode_videos_names_the_first_missing_key_witness :
  reencode_videos Studio.host Studio.b 10 (Int 60) "clip.mp4" "clip.log" (Finite 2)
    [("input_i", "-27.61"); ("input_lra", "18.06"); ("target_offset", "-0.97")] initial
  = (Raise (KeyError "input_tp"), initial).
Proof.
  apply (reencode_videos_names_the_first_missing_key Studio.host Studio.b 10 (Int 60)
           "clip.mp4" "clip.log" (Finite 2) _ initial
           ["input_i"; "input_lra"] "input_tp" ["input_thresh"; "target_offset"]);
    reflexivity.
Defined.

(** ** The names of the files in the workspace *)

Lemma unorm_is_canonical (d : Decimal.uint) :
  Decimal.unorm d = Decimal.D0 Decimal.Nil \/
  (Decimal.unorm d <> Decimal.Nil /\ forall d', Decimal.unorm d <> Decimal.D0 d').
Proof.
  unfold Decimal.unorm.
  assert (H : Decimal.nzhead d = Decimal.Nil \/
              (Decimal.nzhead d <> Decimal.Nil /\
               forall d', Decimal.nzhead d <> Decimal.D0 d')).
  { induction d; simpl; auto; right; split; discriminate. }
  destruct H as [-> | [Hn Hz]]; [now left|].
  right. destruct (Decimal.nzhead d); try (split; discriminate).
  - now elim Hn.
  - now elim (Hz u).
Qed.

Lemma str_of_nat_is_canonical (n : nat) : canonical (PyStr.of_nat n).
Proof.
  unfold PyStr.of_nat. rewrite <- (DecimalNat.Unsigned.of_to n) at 1.
  rewrite DecimalNat.Unsigned.to_of.
  destruct (unorm_is_canonical (Nat.to_uint n)) as [-> | [Hn Hz]]; [now left|].
  right. destruct (Decimal.unorm (Nat.to_uint n)) as [|u|u|u|u|u|u|u|u|u|u]; simpl;
    try (eexists _, _; split; [reflexivity | discriminate]).
  - now elim Hn.
  - now elim (Hz u).
Qed.

Lemma str_of_nat_inj (i j : nat) : PyStr.of_nat i = PyStr.of_nat j -> i = j.
Proof.
  unfold PyStr.of_nat. intros H.
  apply (f_equal DecimalString.NilEmpty.uint_of_string) in H.
  rewrite !DecimalString.NilEmpty.usu in H. injection H as H.
  now apply DecimalNat.Unsigned.to_uint_inj.
Qed.

Lemma zero_padding_cancels (a : nat) :
  forall (b : nat) (d1 d2 : string),
    canonical d1 -> canonical d2 ->
    PyStr.zeros a ++ d1 = PyStr.zeros b ++ d2 -> d1 = d2.
Proof.
  assert (Hbase : forall b d1 d2, canonical d1 -> canonical d2 ->
                    d1 = PyStr.zeros b ++ d2 -> d1 = d2).
  { intros [|b] d1 d2 H1 H2 E; [exact E|]. exfalso. simpl in E.
    destruct H1 as [-> | (c & rest & -> & Hc)].
    - injection E as E. destruct b; simpl in E.
      + destruct H2 as [-> | (c & rest & -> & _)]; discriminate E.
      + discriminate E.
    - injection E as -> _. now elim Hc. }
  induction a as [|a IH]; intros b d1 d2 H1 H2 E.
  - now apply (Hbase b).
  - destruct b as [|b].
    + symmetry. apply (Hbase (S a)); auto.
    + simpl in E. injection E as E. now apply (IH b).
Qed.

Lemma pad4_inj (i j : nat) : PyStr.pad4 i = PyStr.pad4 j -> i = j.
Proof.
  unfold PyStr.pad4. intros E. apply str_of_nat_inj.
  eapply zero_padding_cancels; eauto using str_of_nat_is_canonical.
Qed.

(** A file name made of a word, a padded number and an extension, joined
    to a directory, determines the number. *)
Lemma numbered_name_inj (dir : string) (c : ascii) (word after : string) (i j : nat) :
  PyStr.path_join dir (String c word ++ PyStr.pad4 i ++ after)
  = PyStr.path_join dir (String c word ++ PyStr.pad4 j ++ after) ->
  i = j.
Proof.
  unfold PyStr.path_join. simpl PyStr.starts_with_slash.
  destruct (Ascii.eqb c "/"); intros E.
  - apply append_cancel_l in E. apply append_cancel_r in E. now apply pad4_inj.
  - do 2 apply append_cancel_l in E. apply append_cancel_r in E. now apply pad4_inj.
Qed.

Lemma join_distinct_names (dir a b : string) :
  PyStr.starts_with_slash a = false -> PyStr.starts_with_slash b = false ->
  a <> b -> PyStr.path_join dir a <> PyStr.path_join dir b.
Proof.
  unfold PyStr.path_join. intros -> -> Hne E. now apply append_cancel_l in E.
Qed.

(** A file directly in the temporary directory is none of the files of its
    [logs] directory, when its name does not start like [logs]. *)
Lemma outside_logs (temp_dir name log_name : string) :
  PyStr.starts_with_slash name = false ->
  PyStr.starts_with_slash log_name = false ->
  (forall rest, name <> "logs" ++ rest) ->
  PyStr.path_join temp_dir name
  <> PyStr.path_join (PyStr.path_join temp_dir "logs") log_name.
Proof.
  intros Hn Hl Hne. unfold PyStr.path_join. rewrite Hn, Hl.
  simpl PyStr.starts_with_slash. cbv iota.
  destruct (dir_prefix_extends (PyStr.dir_prefix temp_dir ++ "logs")) as [t ->].
  rewrite !append_assoc. intros E. apply append_cancel_l in E.
  now apply Hne in E.
Qed.

(** X9.  The files of one run never collide: clips, encode logs and
    loudness logs are numbered injectively, and clips, the common clip, the
    concat list and the four kinds of log are pairwise different paths,
    whatever the temporary directory is called. *)
Theorem workspace_paths_never_collide (temp_dir : string) (i j : nat) :
  let logs := PyStr.path_join temp_dir "logs" in
  let common := PyStr.path_join temp_dir "common_clip.mp4" in
  let concat_list := PyStr.path_join temp_dir "concat_list.txt" in
  (temp_clip_path temp_dir i = temp_clip_path temp_dir j -> i = j) /\
  (video_log_path logs i = video_log_path logs j -> i = j) /\
  (loudness_log_path logs i = loudness_log_path logs j -> i = j) /\
  temp_clip_path temp_dir i <> common /\
  temp_clip_path temp_dir i <> concat_list /\
  common <> concat_list /\
  video_log_path logs i <> loudness_log_path logs j /\
  video_log_path logs i <> common_clip_log logs /\
  video_log_path logs i <> concat_log_path logs /\
  loudness_log_path logs i <> common_clip_log logs /\
  loudness_log_path logs i <> concat_log_path logs /\
  common_clip_log logs <> concat_log_path logs /\
  (forall log_name, PyStr.starts_with_slash log_name = false ->
     temp_clip_path temp_dir i <> PyStr.path_join logs log_name /\
     common <> PyStr.path_join logs log_name /\
     concat_list <> PyStr.path_join logs log_name).
Proof.
  cbv zeta.
  unfold temp_clip_path, video_log_path, loudness_log_path, common_clip_log,
    concat_log_path.
  repeat split;
    try (intros E; now apply numbered_name_inj in E);
    try (apply join_distinct_names; [reflexivity | reflexivity | simpl; congruence]);
    try (apply outside_logs; [reflexivity | assumption | intros rest; simpl; congruence]).
Qed.

(** ** Sampling and measuring (lines 85-98) *)


Lemma progress_of_app (a b : list event) :
  progress_of (a ++ b) = (progress_of a ++ progress_of b)%list.
Proof. apply flat_map_app. Qed.

Section Sampling.

Variable h : host.

Lemma draw_progress_bar_run (progress total : nat) (prefix : string) (s : state) :
  total <> 0%nat ->
  draw_progress_bar progress total prefix s
  = (Ok tt, emit (Progress prefix progress total) s).
Proof. destruct total; [now intros H; elim H | reflexivity]. Qed.





End Sampling.


Section MainCourse.

Variable h : host.







End MainCourse.



(** ** The order of the kept files (lines 89-96) *)

Section KeptOrder.

Variable h : host.

Lemma analyze_candidates_result (logs : string) (total : nat)
    (video_files : list string) :
  forall (i : nat) (acc : PyDict.t (pyfloat * PyDict.t string)) (s : state) res s',
    analyze_candidates h logs total i video_files acc s = (Ok res, s') ->
    res = fold_left
            (fun acc f => match retained h f with
                          | Some v => PyDict.set f v acc
                          | None => acc
                          end) video_files acc.
Proof.
  induction video_files as [|f rest IH]; intros i acc s res s' H.
  - now injection H as <- _.
  - cbn [analyze_candidates] in H.
    apply bind_inv in H as [(acc1 & s1 & Hc & H) | (e & _ & He)]; [|discriminate He].
    apply analyze_candidate_run in Hc as (_ & Hres & _).
    rewrite (Hres _ eq_refl) in H.
    apply bind_inv in H as [(u & s2 & _ & H) | (e & _ & He)]; [|discriminate He].
    simpl. now apply IH in H.
Qed.

Lemma kept_in_order (video_files : list string) :
  NoDup video_files ->
  forall acc : PyDict.t (pyfloat * PyDict.t string),
    (forall f, In f video_files -> PyDict.get f acc = None) ->
    fold_left
      (fun acc f => match retained h f with
                    | Some v => PyDict.set f v acc
                    | None => acc
                    end) video_files acc
    = (acc ++ flat_map (kept h) video_files)%list.
Proof.
  induction 1 as [|f rest Hf Hnd IH]; intros acc Hfresh; simpl.
  - now rewrite app_nil_r.
  - unfold kept at 1. destruct (retained h f) as [v|].
    + rewrite dict_set_new by (apply Hfresh; now left).
      rewrite IH; [now rewrite <- app_assoc|].
      intros f' Hf'. apply dict_get_after.
      * intros ->. contradiction.
      * apply Hfresh. now right.
    + apply IH. intros f' Hf'. apply Hfresh. now right.
Qed.

(** X12.  When the measurement loop runs to its end over files that are
    all different, its result lists the kept files in the order in which
    they were sampled, each with its measured duration and statistics:
    the order of the clips is the order of the sample. *)
Theorem analyze_candidates_keeps_the_sample_order (logs : string) (total : nat)
    (video_files : list string) (s s' : state)
    (loudness_results : PyDict.t (pyfloat * PyDict.t string)) :
  NoDup video_files ->
  analyze_candidates h logs total 0 video_files PyDict.empty s
  = (Ok loudness_results, s') ->
  loudness_results = flat_map (kept h) video_files /\
  map fst loudness_results
  = filter (fun f => match retained h f with Some _ => true | None => false end)
      video_files.
Proof.
  intros Hnd H. apply analyze_candidates_result in H.
  rewrite kept_in_order in H by (auto; reflexivity). simpl in H. subst.
  split; [reflexivity|]. clear Hnd.
  induction video_files as [|f rest IH]; simpl; [reflexivity|].
  rewrite map_app, IH. unfold kept. now destruct (retained h f).
Qed.

End KeptOrder.

Lemma analyze_candidates_keeps_the_sample_order_witness :
  exists loudness_results s',
    analyze_candidates Studio.host Studio.logs 4 0
      [Studio.c; Studio.a; Studio.d; Studio.b] PyDict.empty initial
    = (Ok loudness_results, s') /\
    map fst loudness_results = [Studio.c; Studio.b].
Proof.
  eexists _, _. split; [vm_compute; reflexivity|].
  match goal with
  | |- map fst ?res = _ =>
      destruct (analyze_candidates_keeps_the_sample_order Studio.host Studio.logs 4
                  [Studio.c; Studio.a; Studio.d; Studio.b] initial
                  (snd (analyze_candidates Studio.host Studio.logs 4 0
                          [Studio.c; Studio.a; Studio.d; Studio.b] PyDict.empty initial))
                  res) as [_ H]
  end.
  - repeat constructor; simpl; intuition discriminate.
  - vm_compute. reflexivity.
  - rewrite H. vm_compute. reflexivity.
Defined.

(** ** A job without its statistics (lines 105-116) *)

Section BatchAbort.

Variables (h : host) (temp_dir logs : string) (fade_duration : pyfloat).

Lemma failure_line_is_not_summary (c : command) (failed : nat) :
  failure_line c <> summary_line failed.
Proof. unfold failure_line, summary_line, nl. simpl. congruence. Qed.

Lemma encode_clips_stops_at_missing_statistics (total : nat) (ready : list job)
    (bad : job) (later : list job) :
  total <> 0%nat -> Forall job_ready ready ->
  (exists d : Q, fst (snd bad) = Finite d /\ (80 <= d)%Q) ->
  has_required (snd (snd bad)) = false ->
  forall (i : nat) clips failed (s : state),
    exists key s' new,
      encode_clips h temp_dir logs fade_duration total i (ready ++ bad :: later)%list
        clips failed s = (Raise (KeyError key), s') /\
      In key required_keys /\ has_key (snd (snd bad)) key = false /\
      trace s' = (trace s ++ new)%list /\
      map input_of (runs new) = map fst ready /\
      written new = [] /\
      printed new = map failure_line (filter (failing h) (runs new)).
Proof.
  intros Ht Hready (d & Hd & Hd80) Hmiss.
  induction Hready as [|j rest Hj _ IH]; intros i clips failed s.
  - destruct bad as [f [dur info]]. simpl in Hd, Hmiss. subst dur.
    destruct (pick_start_time_run h d s Hd80) as (st & whole & s1 & Hp & _ & _ & _ & [Ht1 _]).
    destruct (reencode_videos_missing h f st (Int 60) (temp_clip_path temp_dir i)
                (video_log_path logs i) fade_duration info s1 Hmiss)
      as (key & Hin & Hk & Hre).
    assert (Hec : encode_clip h temp_dir logs fade_duration i (f, (Finite d, info))
                    clips failed s = (Raise (KeyError key), s1)).
    { unfold encode_clip. rewrite (bind_ok _ _ _ _ _ Hp).
      now apply bind_raise. }
    exists key, s1, []. simpl app. cbn [encode_clips].
    rewrite (bind_raise _ _ _ _ _ Hec).
    split; [reflexivity|]. repeat split; auto.
  - destruct (encode_clip_total h temp_dir logs fade_duration i j clips failed s Hj)
      as ([clips1 failed1] & s1 & Hc).
    pose proof Hc as Hc'.
    apply encode_clip_run in Hc' as [(e & He & _) | (c & Ha & _ & [Ht1 _])];
      [discriminate He|].
    simpl app. cbn [encode_clips]. rewrite (bind_ok _ _ _ _ _ Hc).
    rewrite (bind_ok _ _ _ _ _
               (draw_progress_bar_run i total "Processing: " s1 Ht)).
    destruct (IH (S i) clips1 failed1 (emit (Progress "Processing: " i total) s1))
      as (key & s' & new & Hr & Hin & Hk & Ht2 & Hinp & Hwr & Hpr).
    exists key, s'. eexists. split; [exact Hr|].
    split; [exact Hin|]. split; [exact Hk|].
    split.
    { rewrite Ht2. simpl. rewrite Ht1, <- !app_assoc. reflexivity. }
    destruct Ha as (st & whole & _ & _ & _ & ->).
    rewrite runs_app, written_app, printed_app.
    unfold failing in *.
    destruct (succeeded h _) eqn:Hs; simpl; rewrite ?Hs; simpl;
      rewrite Hinp, Hwr, Hpr; repeat split; reflexivity.
Qed.

(** X13.  A job whose statistics lack one of the five keys stops the
    batch: the jobs before it have been encoded, the job itself and the
    jobs after it are not, the [KeyError] of the missing key leaves the
    tail of [main], and neither the summary line nor the concat list is
    written and the concatenation is not run. *)
Theorem a_job_without_statistics_stops_the_batch (output_file : string)
    (video_files : list string) (ready : list job) (bad : job) (later : list job)
    (s : state) :
  video_files <> [] -> Forall job_ready ready ->
  (exists d : Q, fst (snd bad) = Finite d /\ (80 <= d)%Q) ->
  has_required (snd (snd bad)) = false ->
  exists key s' new,
    process_and_assemble h temp_dir logs (PyStr.path_join temp_dir "common_clip.mp4")
      fade_duration output_file video_files (ready ++ bad :: later)%list s
    = (Raise (KeyError key), s') /\
    In key required_keys /\ has_key (snd (snd bad)) key = false /\
    trace s' = (trace s ++ new)%list /\
    map input_of (runs new) = map fst ready /\
    written new = [] /\
    (forall failed, ~ In (Print (summary_line failed)) new).
Proof.
  intros Hv Hready Hd Hmiss.
  destruct (encode_clips_stops_at_missing_statistics (List.length video_files)
              ready bad later
              ltac:(destruct video_files; [now elim Hv | discriminate])
              Hready Hd Hmiss 1%nat [] 0%nat s)
    as (key & s' & new & Hr & Hin & Hk & Ht & Hinp & Hwr & Hpr).
  exists key, s', new. unfold process_and_assemble, PyDict.items.
  rewrite (bind_raise _ _ _ _ _ Hr).
  repeat (split; [assumption || reflexivity|]).
  intros failed Hf. apply in_printed in Hf. rewrite Hpr in Hf.
  apply in_map_iff in Hf as (c & Hc & _).
  now apply failure_line_is_not_summary in Hc.
Qed.

End BatchAbort.

Lemma a_job_without_statistics_stops_the_batch_witness :
  exists key s' new,
    process_and_assemble Studio.host Studio.temp_dir Studio.logs Studio.common
      (Finite 2) "out.mp4" [Studio.a; Studio.b; Studio.c]
      ([(Studio.b, (Finite (181 # 2), Studio.stats))]
       ++ (Studio.c, (Finite 200, parse_loudness Studio.loudnorm_report)) :: [])%list
      initial
    = (Raise (KeyError key), s') /\
    trace s' = new /\ map input_of (runs new) = [Studio.b].
Proof.
  assert (Hready : Forall job_ready [(Studio.b, (Finite (181 # 2), Studio.stats))]).
  { repeat constructor. exists (181 # 2). split; [reflexivity | discriminate]. }
  assert (Hbad : exists d : Q,
             fst (snd (Studio.c, (Finite 200, parse_loudness Studio.loudnorm_report)))
             = Finite d /\ (80 <= d)%Q).
  { exists 200%Q. split; [reflexivity | discriminate]. }
  destruct (a_job_without_statistics_stops_the_batch Studio.host Studio.temp_dir
              Studio.logs (Finite 2) "out.mp4" [Studio.a; Studio.b; Studio.c]
              [(Studio.b, (Finite (181 # 2), Studio.stats))]
              (Studio.c, (Finite 200, parse_loudness Studio.loudnorm_report)) []
              initial ltac:(discriminate) Hready Hbad eq_refl)
    as (key & s' & new & Hr & _ & _ & Ht & Hinp & _).
  exists key, s', new. repeat split; assumption.
Defined.

(** ** From the duration filter to the start offset (lines 93 and 107) *)

Section Offsets.

Variable h : host.

(** X14.  A duration the measurement loop keeps always leaves room for a
    clip: if it is finite, line 107 draws an offset [s] with [10 <= s] and
    [s + 70 <= duration], the range of [randint] being never empty; the
    only other duration the filter lets through is positive infinity, for
    which [int] raises [OverflowError]. *)
Theorem a_kept_duration_leaves_room_for_a_clip (video_file : string) (d : pyfloat)
    (info : PyDict.t string) (s : state) :
  retained h video_file = Some (d, info) ->
  (exists (q : Q) start_time s',
     d = Finite q /\ (80 <= q)%Q /\
     pick_start_time h d s = (Ok start_time, s') /\
     10 <= start_time /\ (inject_Z (start_time + 70) <= q)%Q) \/
  (d = Infinity false /\
   pick_start_time h d s
   = (Raise (OverflowError "cannot convert float infinity to integer"), s)).
Proof.
  intros H. apply retained_iff in H as (_ & Hge & _).
  destruct d as [q|[|]|]; simpl in Hge; try discriminate Hge.
  - left. apply Qle_bool_iff in Hge.
    destruct (pick_start_time_run h q s Hge) as (st & whole & s' & Hp & _ & Hb & Hw & _).
    exists q, st, s'. repeat split; try assumption; try lia.
    apply Qle_trans with (2 := Hw). rewrite <- Zle_Qle. lia.
  - right. split; reflexivity.
Qed.

End Offsets.

Lemma a_kept_duration_leaves_room_for_a_clip_witness :
  exists d info,
    retained Studio.host Studio.b = Some (d, info) /\
    exists (q : Q) start_time s',
      d = Finite q /\
      pick_start_time Studio.host d initial = (Ok start_time, s') /\
      10 <= start_time /\ (inject_Z (start_time + 70) <= q)%Q.
Proof.
  eexists _, _. split; [vm_compute; reflexivity|].
  match goal with
  | |- exists x1 x2 x3, Finite ?q0 = _ /\ _ =>
      destruct (a_kept_duration_leaves_room_for_a_clip Studio.host Studio.b
                  (Finite q0) (parse_loudness Studio.loudnorm_report) initial
                  ltac:(vm_compute; reflexivity))
        as [(q & st & s' & Hq & _ & Hp & Hlo & Hhi) | [Hinf _]]
  end.
  - exists q, st, s'. repeat split; assumption.
  - discriminate Hinf.
Defined.

(** ** The progress of the per-clip loop (lines 106-116) *)

Section Processing.

Variables (h : host) (temp_dir logs : string) (fade_duration : pyfloat).

Lemma pick_start_time_draws_once (d : Q) (s : state) :
  (80 <= d)%Q ->
  exists start_time s',
    pick_start_time h (Finite d) s = (Ok start_time, s') /\
    trace s' = trace s /\ draws s' = S (draws s).
Proof.
  intros Hd.
  destruct (to_int_finite_bounds d) as (whole & Hw & _ & Hhi).
  { apply Qle_trans with (2 := Hd). discriminate. }
  assert (Hwhole : 80 <= whole).
  { assert (H : (80 < inject_Z (whole + 1))%Q) by (eapply Qle_lt_trans; eauto).
    unfold Qlt in H. simpl in H. lia. }
  unfold pick_start_time.
  rewrite (bind_ok (lift (PyFloat.to_int (Finite d))) _ s whole s)
    by (unfold lift; now rewrite Hw).
  unfold randint. destruct (whole - 70 <? 10) eqn:E; [apply Z.ltb_lt in E; lia|].
  unfold bind, randbelow, ret. eexists _, _. split; [reflexivity|]. split; reflexivity.
Qed.

Lemma encode_clip_ready (i : nat) (j : job) clips failed (s : state) :
  job_ready j ->
  exists res s' step,
    encode_clip h temp_dir logs fade_duration i j clips failed s = (Ok res, s') /\
    trace s' = (trace s ++ step)%list /\ progress_of step = [] /\
    List.length (runs step) = 1%nat /\ draws s' = S (draws s).
Proof.
  destruct j as [f [d info]]. intros [(q & Hq & Hd) Hk]. simpl in Hq, Hk. subst d.
  destruct (pick_start_time_draws_once q s Hd) as (st & s1 & Hp & Ht1 & Hd1).
  unfold encode_clip. rewrite (bind_ok _ _ _ _ _ Hp).
  set (c := Encode f st (Int 60) fade_duration (audio_filters_of info)
              (temp_clip_path temp_dir i)).
  assert (Hrun : exists s2,
             run_command h c (video_log_path logs i) s1 = (Ok (succeeded h c), s2) /\
             trace s2 = (trace s1 ++ [Run c (video_log_path logs i)])%list /\
             draws s2 = draws s1).
  { unfold run_command, succeeded. destruct (ffmpeg h c) as [ok left].
    destruct left; eexists; repeat split; reflexivity. }
  destruct Hrun as (s2 & Hrc & Ht2 & Hd2).
  rewrite (bind_ok _ _ s1 (succeeded h c) s2)
    by (rewrite reencode_videos_present by exact Hk; exact Hrc).
  destruct (succeeded h c).
  - eexists _, s2, [Run c (video_log_path logs i)].
    split; [reflexivity|]. rewrite Ht2, Ht1, Hd2, Hd1. repeat split; reflexivity.
  - eexists _, _, [Run c (video_log_path logs i);
                   Print ("Failed to process video: " ++ f)].
    unfold bind, print, effect, ret. split; [reflexivity|].
    simpl. rewrite Ht2, Ht1, Hd2, Hd1, <- app_assoc. repeat split; reflexivity.
Qed.

(** X15.  For ready jobs the per-clip loop draws one random number per job
    and one progress bar after each job, counting the jobs from 1 against
    the number of sampled files: when a sampled file was dropped before,
    the last bar stays short of the total. *)
Theorem processing_progress_counts_the_jobs (total : nat) (jobs : list job)
    (s : state) :
  total <> 0%nat -> Forall job_ready jobs ->
  exists res s' new,
    encode_clips h temp_dir logs fade_duration total 1 jobs [] 0 s = (Ok res, s') /\
    trace s' = (trace s ++ new)%list /\
    progress_of new
    = map (fun i => ("Processing: ", i, total)) (seq 1 (List.length jobs)) /\
    List.length (runs new) = List.length jobs /\
    draws s' = (draws s + List.length jobs)%nat.
Proof.
  intros Ht Hj.
  assert (H : forall (s0 : state) (i : nat) clips failed,
             exists res s' new,
               encode_clips h temp_dir logs fade_duration total i jobs clips failed s0
               = (Ok res, s') /\
               trace s' = (trace s0 ++ new)%list /\
               progress_of new
               = map (fun k => ("Processing: ", k, total)) (seq i (List.length jobs)) /\
               List.length (runs new) = List.length jobs /\
               draws s' = (draws s0 + List.length jobs)%nat);
    [|apply H].
  clear s.
  induction Hj as [|j rest Hr _ IH]; intros s i clips failed.
  - exists (clips, failed), s, []. simpl. rewrite app_nil_r.
    repeat split; auto.
  - destruct (encode_clip_ready i j clips failed s Hr)
      as ([clips1 failed1] & s1 & step & Hc & Ht1 & Hp1 & Hr1 & Hd1).
    cbn [encode_clips]. rewrite (bind_ok _ _ _ _ _ Hc).
    rewrite (bind_ok _ _ _ _ _ (draw_progress_bar_run i total "Processing: " s1 Ht)).
    destruct (IH (emit (Progress "Processing: " i total) s1) (S i) clips1 failed1)
      as (res & s' & new & He & Ht2 & Hp2 & Hr2 & Hd2).
    exists res, s', (step ++ Progress "Processing: " i total :: new)%list.
    split; [exact He|]. split.
    { rewrite Ht2. simpl. rewrite Ht1, <- !app_assoc. reflexivity. }
    split; [rewrite progress_of_app, Hp1; simpl; now rewrite Hp2|].
    split.
    { rewrite runs_app, length_app, Hr1. simpl. now rewrite Hr2. }
    rewrite Hd2. simpl. rewrite Hd1. lia.
Qed.

End Processing.

Lemma processing_progress_counts_the_jobs_witness :
  exists res s' new,
    encode_clips Studio.host Studio.temp_dir Studio.logs (Finite 2) 3 1
      (PyDict.items Studio.jobs) [] 0 initial = (Ok res, s') /\
    trace s' = new /\
    progress_of new = [("Processing: ", 1, 3); ("Processing: ", 2, 3)]%nat /\
    draws s' = 2%nat.
Proof.
  assert (Hj : Forall job_ready (PyDict.items Studio.jobs)).
  { repeat constructor; simpl.
    - exists (181 # 2). split; [reflexivity | discriminate].
    - exists 200%Q. split; [reflexivity | discriminate]. }
  destruct (processing_progress_counts_the_jobs Studio.host Studio.temp_dir
              Studio.logs (Finite 2) 3 (PyDict.items Studio.jobs) initial
              ltac:(discriminate) Hj)
    as (res & s' & new & He & Ht & Hp & _ & Hd).
  exists res, s', new. repeat split; assumption.
Defined.
